(** * RemoteApp (RAIL) channel support of the RDP protocol plugin

    A shallow embedding of [src/protocols/rdp/channels/rail.c] and the
    verification of its handshake sequencer, its execute-result handler and
    its channel listener.

    The C code is effectful: it locks and unlocks the session's message
    mutex, calls the four send primitives that FreeRDP stores in the
    [RailClientContext], and calls libguac's logging and abort functions.
    The embedding threads a [world] (the heap of session objects, the
    state of the transport, and the trace of the calls made so far) through
    a small state-and-failure monad.  Failure stands for undefined
    behaviour of the C program (a null or dangling pointer is
    dereferenced). *)

From Stdlib Require Import ZArith String List Lia Bool.
From stdpp Require Import gmap strings list fin_maps.

Import ListNotations.
Local Open Scope string_scope.
Local Open Scope list_scope.
Local Open Scope Z_scope.

(** ** Machine types *)

(** [UINT], [UINT16] and [UINT32] are unsigned machine integers.  The
    functions below never do arithmetic on them, so no wrap-around is ever
    written out: values are stored, compared and passed on. *)
Definition UINT := Z.
Definition UINT16 := Z.
Definition UINT32 := Z.
Definition BOOL := bool.

Definition FALSE : BOOL := false.

(** [CHANNEL_RC_OK (zero)], as the documentation of every handler in the
    file spells it. *)
Definition CHANNEL_RC_OK : UINT := 0.

(** Addresses of the session objects ([guac_client*]). *)
Definition ptr := N.

(** ** Constants of the headers

    The values of the macros of FreeRDP, WinPR and libguac that the file
    uses come from headers outside the sources; the development is
    parametric in them. *)
Class RailConstants := {
  RAIL_EXEC_S_OK : Z;
  RAIL_EXEC_FLAG_EXPAND_ARGUMENTS : Z;
  HCF_AVAILABLE : Z;
  HCF_CONFIRMHOTKEY : Z;
  HCF_HOTKEYACTIVE : Z;
  HCF_HOTKEYAVAILABLE : Z;
  HCF_HOTKEYSOUND : Z;
  HCF_INDICATOR : Z;
  SPI_MASK_SET_DRAG_FULL_WINDOWS : Z;
  SPI_MASK_SET_HIGH_CONTRAST : Z;
  SPI_MASK_SET_KEYBOARD_CUES : Z;
  SPI_MASK_SET_KEYBOARD_PREF : Z;
  SPI_MASK_SET_MOUSE_BUTTON_SWAP : Z;
  SPI_MASK_SET_WORK_AREA : Z;
  RAIL_SVC_CHANNEL_NAME : string;
  GUAC_LOG_DEBUG : Z;
  GUAC_PROTOCOL_STATUS_UPSTREAM_UNAVAILABLE : Z
}.

(** The values of FreeRDP 2 ([freerdp/rail.h], [winpr/wtypes.h]) and of
    libguac ([guacamole/client-types.h], [guacamole/protocol-types.h]),
    used to run the embedding on concrete sessions. *)
Definition freerdp2_constants : RailConstants := {|
  RAIL_EXEC_S_OK := 0x0000;
  RAIL_EXEC_FLAG_EXPAND_ARGUMENTS := 0x0008;
  HCF_AVAILABLE := 0x00000002;
  HCF_CONFIRMHOTKEY := 0x00000008;
  HCF_HOTKEYACTIVE := 0x00000004;
  HCF_HOTKEYAVAILABLE := 0x00000040;
  HCF_HOTKEYSOUND := 0x00000010;
  HCF_INDICATOR := 0x00000020;
  SPI_MASK_SET_DRAG_FULL_WINDOWS := 0x00000001;
  SPI_MASK_SET_HIGH_CONTRAST := 0x00000080;
  SPI_MASK_SET_KEYBOARD_CUES := 0x00000002;
  SPI_MASK_SET_KEYBOARD_PREF := 0x00000004;
  SPI_MASK_SET_MOUSE_BUTTON_SWAP := 0x00000008;
  SPI_MASK_SET_WORK_AREA := 0x00000010;
  RAIL_SVC_CHANNEL_NAME := "rail";
  GUAC_LOG_DEBUG := 7;
  GUAC_PROTOCOL_STATUS_UPSTREAM_UNAVAILABLE := 0x0208
|}.

(** ** Session context *)

(** Modelled from the spec: the declaration of [guac_rdp_settings]
    ([settings.h]) is not part of the sources.  Of the configuration, the
    display size and the three RemoteApp strings are read here; the size is
    an integer, a string is a [char*] that may be null. *)
Record guac_rdp_settings := {
  width : Z;
  height : Z;
  remote_app : option string;
  remote_app_dir : option string;
  remote_app_args : option string
}.

(** A [pthread_mutex_t], as seen from the thread that runs the handlers:
    held by it, or not. *)
Inductive pthread_mutex_t := MutexUnlocked | MutexLocked.

(** Modelled from the spec: the declaration of [guac_rdp_client] ([rdp.h])
    is not part of the sources.  It holds the settings and the lock that
    serialises outbound messages. *)
Record guac_rdp_client := {
  settings : guac_rdp_settings;
  message_lock : pthread_mutex_t
}.

(** A [guac_client]; [data] is the protocol-specific part.  The pointers
    [client->data] and [rdp_client->settings] are followed in place: the
    objects are owned by the one [guac_client] that is stored in the heap. *)
Record guac_client := {
  data : guac_rdp_client
}.

Definition set_message_lock (m : pthread_mutex_t) (c : guac_client) : guac_client :=
  {| data := {| settings := settings (data c); message_lock := m |} |}.

(** ** Records sent to the server *)

Record RAIL_HANDSHAKE_ORDER := {
  buildNumber : UINT32
}.

Record RAIL_HANDSHAKE_EX_ORDER := {
  ex_buildNumber : UINT32;
  railHandshakeFlags : UINT32
}.

(** [flags] of the Client Information PDU. *)
Record RAIL_CLIENT_STATUS_ORDER := {
  status_flags : UINT32
}.

(** [{ length, string }]: a counted string; [string] may be null. *)
Record RAIL_UNICODE_STRING := {
  us_length : UINT16;
  us_string : option (list Z)
}.

(** [{ flags, colorScheme }] *)
Record RAIL_HIGH_CONTRAST := {
  hc_flags : UINT32;
  colorScheme : RAIL_UNICODE_STRING
}.

(** Modelled from the spec: the rectangle of the work area is declared by
    FreeRDP and the display size by [settings.h], both outside the sources.
    The coordinates and the size are taken as integers of one type, so that
    the initialiser [.right = settings->width] copies the size as it is.
    FreeRDP's coordinates are 16 bits wide: the copy is what C does for
    the sizes in 0..65535, the range [display_size_fits] below. *)
Record RECTANGLE_16 := {
  left : Z;
  top : Z;
  right : Z;
  bottom : Z
}.

Record RAIL_SYSPARAM_ORDER := {
  params : UINT32;
  dragFullWindows : BOOL;
  highContrast : RAIL_HIGH_CONTRAST;
  keyboardCues : BOOL;
  keyboardPref : BOOL;
  mouseButtonSwap : BOOL;
  workArea : RECTANGLE_16
}.

(** [flags] and the three strings of the Client Execute PDU. *)
Record RAIL_EXEC_ORDER := {
  exec_flags : UINT16;
  RemoteApplicationProgram : option string;
  RemoteApplicationWorkingDir : option string;
  RemoteApplicationArguments : option string
}.

Record RAIL_EXEC_RESULT_ORDER := {
  execResult : Z
}.

(** ** Calls observed from outside *)

(** Every call that leaves the file is recorded, in order, with its
    arguments; a send is recorded with the status it returned. *)
Inductive event :=
| EvMutexLock (c : ptr)
| EvMutexUnlock (c : ptr)
| EvClientHandshake (o : RAIL_HANDSHAKE_ORDER) (ret : UINT)
| EvClientInformation (o : RAIL_CLIENT_STATUS_ORDER) (ret : UINT)
| EvClientSystemParam (o : RAIL_SYSPARAM_ORDER) (ret : UINT)
| EvClientExecute (o : RAIL_EXEC_ORDER) (ret : UINT)
| EvClientLog (c : option ptr) (level : Z) (format : string) (args : list Z)
| EvClientAbort (c : option ptr) (status : Z) (message : string).

(** The four sends of the handshake. *)
Inductive rail_send := SendHandshake | SendClientStatus | SendSysparam | SendExecute.

Definition send_kind (e : event) : option rail_send :=
  match e with
  | EvClientHandshake _ _ => Some SendHandshake
  | EvClientInformation _ _ => Some SendClientStatus
  | EvClientSystemParam _ _ => Some SendSysparam
  | EvClientExecute _ _ => Some SendExecute
  | _ => None
  end.

Definition send_status (e : event) : option UINT :=
  match e with
  | EvClientHandshake _ st | EvClientInformation _ st
  | EvClientSystemParam _ st | EvClientExecute _ st => Some st
  | _ => None
  end.

Definition abort_call (e : event) : option (option ptr * Z * string) :=
  match e with
  | EvClientAbort c st msg => Some (c, st, msg)
  | _ => None
  end.

Definition is_send (e : event) : Prop := is_Some (send_kind e).

(** The order the protocol prescribes. *)
Definition handshake_steps : list rail_send :=
  [SendHandshake; SendClientStatus; SendSysparam; SendExecute].

(** The callbacks the file can install, as function pointers; [FnForeign]
    is any function that lives elsewhere. *)
Inductive rail_callback :=
| Fn_guac_rdp_rail_execute_result
| Fn_guac_rdp_rail_handshake
| Fn_guac_rdp_rail_handshake_ex
| FnForeign (addr : N).

(** [strcmp] of the C library: the sign of the lexicographic comparison. *)
Definition strcmp (a b : string) : Z :=
  match String.compare a b with
  | Eq => 0
  | Lt => -1
  | Gt => 1
  end.

Section Rail.

Context {K : RailConstants}.

(** The state of the transport below the channel, and the members of the
    [RailClientContext] that the file never touches. *)
Variable T : Type.
Variable R : Type.

(** ** Channel context *)

(** FreeRDP's [RailClientContext].  A send primitive takes the record and
    the state of the transport and returns a status and the new state. *)
Record RailClientContext := {
  custom : option ptr;
  ClientHandshake : RAIL_HANDSHAKE_ORDER -> T -> UINT * T;
  ClientInformation : RAIL_CLIENT_STATUS_ORDER -> T -> UINT * T;
  ClientSystemParam : RAIL_SYSPARAM_ORDER -> T -> UINT * T;
  ClientExecute : RAIL_EXEC_ORDER -> T -> UINT * T;
  ServerExecuteResult : option rail_callback;
  ServerHandshake : option rail_callback;
  ServerHandshakeEx : option rail_callback;
  other_members : R
}.

(** ** The world and the monad *)

Record world := {
  clients : gmap ptr guac_client;
  transport : T;
  trace : list event
}.

Definition M (A : Type) : Type := world -> option (A * world).

Definition ret {A} (a : A) : M A := fun w => Some (a, w).

Definition bind {A B} (m : M A) (k : A -> M B) : M B :=
  fun w => match m w with
           | Some (a, w') => k a w'
           | None => None
           end.

Definition undefined {A} : M A := fun _ => None.

Notation "'let*' x ':=' c 'in' k" := (bind c (fun x => k))
  (at level 10, x name, c at level 100, k at level 200).
Notation "c ';;' k" := (bind c (fun _ => k))
  (at level 100, k at level 200, right associativity).

Definition emit (e : event) : M unit :=
  fun w => Some (tt, {| clients := clients w; transport := transport w;
                        trace := trace w ++ [e] |}).

(** [client->data], [rdp_client->settings]: the object must be live. *)
Definition client_settings (c : ptr) : M guac_rdp_settings :=
  fun w => match clients w !! c with
           | Some g => Some (settings (data g), w)
           | None => None
           end.

(** [(guac_client* ) rail->custom] followed by [client->data]. *)
Definition rdp_client_of (rail : RailClientContext) : M ptr :=
  fun w => match custom rail with
           | Some c => match clients w !! c with
                       | Some _ => Some (c, w)
                       | None => None
                       end
           | None => None
           end.

Definition store_lock (c : ptr) (m : pthread_mutex_t) : M unit :=
  fun w => match clients w !! c with
           | Some g => Some (tt, {| clients := <[c := set_message_lock m g]> (clients w);
                                    transport := transport w;
                                    trace := trace w |})
           | None => None
           end.

(** [pthread_mutex_lock(&(rdp_client->message_lock))] returns once the
    calling thread holds the mutex.  The embedding shows the call of a
    thread that does not hold the mutex yet.  Called by a thread that holds
    it already, the C function does not return (or, on a recursive mutex,
    nests): the embedding does not show that, and every statement below
    about the state of the mutex assumes it [MutexUnlocked] at entry. *)
Definition pthread_mutex_lock (c : ptr) : M unit :=
  emit (EvMutexLock c) ;; store_lock c MutexLocked.

Definition pthread_mutex_unlock (c : ptr) : M unit :=
  emit (EvMutexUnlock c) ;; store_lock c MutexUnlocked.

(** A call through one of the [Client...] function pointers.  In C the
    primitive also receives the channel context; here what it can read
    besides the record is the state [T] of FreeRDP. *)
Definition call_send {O} (f : O -> T -> UINT * T) (ev : O -> UINT -> event) (o : O)
  : M UINT :=
  fun w => let '(st, t) := f o (transport w) in
           Some (st, {| clients := clients w; transport := t;
                        trace := trace w ++ [ev o st] |}).

Definition guac_client_log (c : option ptr) (level : Z) (format : string)
    (args : list Z) : M unit :=
  emit (EvClientLog c level format args).

Definition guac_client_abort (c : option ptr) (status : Z) (message : string) : M unit :=
  emit (EvClientAbort c status message).

(** ** The handshake sequencer *)

Definition handshake_order : RAIL_HANDSHAKE_ORDER :=
  {| buildNumber := 7600 |}.

Definition client_status_order : RAIL_CLIENT_STATUS_ORDER :=
  {| status_flags := 0x00 |}.

Definition sysparam_order (s : guac_rdp_settings) : RAIL_SYSPARAM_ORDER :=
  {| dragFullWindows := FALSE;
     highContrast :=
       {| hc_flags :=
            Z.lor (Z.lor (Z.lor (Z.lor (Z.lor
              HCF_AVAILABLE
              HCF_CONFIRMHOTKEY)
              HCF_HOTKEYACTIVE)
              HCF_HOTKEYAVAILABLE)
              HCF_HOTKEYSOUND)
              HCF_INDICATOR;
          colorScheme := {| us_string := None; us_length := 0 |} |};
     keyboardCues := FALSE;
     keyboardPref := FALSE;
     mouseButtonSwap := FALSE;
     workArea :=
       {| left := 0;
          top := 0;
          right := width s;
          bottom := height s |};
     params :=
       Z.lor (Z.lor (Z.lor (Z.lor (Z.lor
         SPI_MASK_SET_DRAG_FULL_WINDOWS
         SPI_MASK_SET_HIGH_CONTRAST)
         SPI_MASK_SET_KEYBOARD_CUES)
         SPI_MASK_SET_KEYBOARD_PREF)
         SPI_MASK_SET_MOUSE_BUTTON_SWAP)
         SPI_MASK_SET_WORK_AREA |}.

Definition exec_order (s : guac_rdp_settings) : RAIL_EXEC_ORDER :=
  {| exec_flags := RAIL_EXEC_FLAG_EXPAND_ARGUMENTS;
     RemoteApplicationProgram := remote_app s;
     RemoteApplicationWorkingDir := remote_app_dir s;
     RemoteApplicationArguments := remote_app_args s |}.

Definition guac_rdp_rail_complete_handshake (rail : RailClientContext) : M UINT :=
  let* rdp_client := rdp_client_of rail in
  let handshake := handshake_order in
  (* Send client handshake response *)
  pthread_mutex_lock rdp_client ;;
  let* status := call_send (ClientHandshake rail) EvClientHandshake handshake in
  pthread_mutex_unlock rdp_client ;;
  if negb (Z.eqb status CHANNEL_RC_OK) then ret status else
  let client_status := client_status_order in
  (* Send client status *)
  pthread_mutex_lock rdp_client ;;
  let* status := call_send (ClientInformation rail) EvClientInformation client_status in
  pthread_mutex_unlock rdp_client ;;
  if negb (Z.eqb status CHANNEL_RC_OK) then ret status else
  let* s := client_settings rdp_client in
  let sysparam := sysparam_order s in
  (* Send client system parameters *)
  pthread_mutex_lock rdp_client ;;
  let* status := call_send (ClientSystemParam rail) EvClientSystemParam sysparam in
  pthread_mutex_unlock rdp_client ;;
  if negb (Z.eqb status CHANNEL_RC_OK) then ret status else
  let* s := client_settings rdp_client in
  let exec := exec_order s in
  (* Execute desired RemoteApp command *)
  pthread_mutex_lock rdp_client ;;
  let* status := call_send (ClientExecute rail) EvClientExecute exec in
  pthread_mutex_unlock rdp_client ;;
  ret status.

(** ** The handlers FreeRDP calls back *)

Definition guac_rdp_rail_execute_result (context : RailClientContext)
    (result : RAIL_EXEC_RESULT_ORDER) : M UINT :=
  let client := custom context in
  (if negb (Z.eqb (execResult result) RAIL_EXEC_S_OK) then
     guac_client_log client GUAC_LOG_DEBUG
       "Failed to execute RAIL command on server: %d" [execResult result] ;;
     guac_client_abort client GUAC_PROTOCOL_STATUS_UPSTREAM_UNAVAILABLE
       "Failed to execute RAIL command."
   else ret tt) ;;
  ret CHANNEL_RC_OK.

Definition guac_rdp_rail_handshake (rail : RailClientContext)
    (handshake : RAIL_HANDSHAKE_ORDER) : M UINT :=
  guac_rdp_rail_complete_handshake rail.

Definition guac_rdp_rail_handshake_ex (rail : RailClientContext)
    (handshake_ex : RAIL_HANDSHAKE_EX_ORDER) : M UINT :=
  guac_rdp_rail_complete_handshake rail.

(** ** The channel listener *)

(** What [args->pInterface] points to: the context of the RAIL channel, or
    the interface of some other channel. *)
Inductive channel_interface :=
| IfaceRail (rail : RailClientContext)
| IfaceOther (addr : N).

Record ChannelConnectedEventArgs := {
  name : string;
  pInterface : channel_interface
}.

(** Modelled from the spec: the declaration of [rdp_freerdp_context]
    ([rdp.h]) is not part of the sources.  It extends FreeRDP's context with
    a pointer to the [guac_client] of the session. *)
Record rdp_freerdp_context := {
  client : option ptr
}.

Definition set_custom (v : option ptr) (rail : RailClientContext) : RailClientContext :=
  {| custom := v;
     ClientHandshake := ClientHandshake rail;
     ClientInformation := ClientInformation rail;
     ClientSystemParam := ClientSystemParam rail;
     ClientExecute := ClientExecute rail;
     ServerExecuteResult := ServerExecuteResult rail;
     ServerHandshake := ServerHandshake rail;
     ServerHandshakeEx := ServerHandshakeEx rail;
     other_members := other_members rail |}.

Definition set_ServerExecuteResult (v : option rail_callback) (rail : RailClientContext)
  : RailClientContext :=
  {| custom := custom rail;
     ClientHandshake := ClientHandshake rail;
     ClientInformation := ClientInformation rail;
     ClientSystemParam := ClientSystemParam rail;
     ClientExecute := ClientExecute rail;
     ServerExecuteResult := v;
     ServerHandshake := ServerHandshake rail;
     ServerHandshakeEx := ServerHandshakeEx rail;
     other_members := other_members rail |}.

Definition set_ServerHandshake (v : option rail_callback) (rail : RailClientContext)
  : RailClientContext :=
  {| custom := custom rail;
     ClientHandshake := ClientHandshake rail;
     ClientInformation := ClientInformation rail;
     ClientSystemParam := ClientSystemParam rail;
     ClientExecute := ClientExecute rail;
     ServerExecuteResult := ServerExecuteResult rail;
     ServerHandshake := v;
     ServerHandshakeEx := ServerHandshakeEx rail;
     other_members := other_members rail |}.

Definition set_ServerHandshakeEx (v : option rail_callback) (rail : RailClientContext)
  : RailClientContext :=
  {| custom := custom rail;
     ClientHandshake := ClientHandshake rail;
     ClientInformation := ClientInformation rail;
     ClientSystemParam := ClientSystemParam rail;
     ClientExecute := ClientExecute rail;
     ServerExecuteResult := ServerExecuteResult rail;
     ServerHandshake := ServerHandshake rail;
     ServerHandshakeEx := v;
     other_members := other_members rail |}.

(** The listener mutates the object behind [args->pInterface]; the
    embedding returns the arguments with the object as the call leaves it.
    When the channel is RAIL and the interface is not a
    [RailClientContext], the C code writes through a pointer of the wrong
    type: undefined. *)
Definition guac_rdp_rail_channel_connected (context : rdp_freerdp_context)
    (args : ChannelConnectedEventArgs) : M ChannelConnectedEventArgs :=
  let client := client context in
  (* Ignore connection event if it is not for the RAIL channel *)
  if negb (Z.eqb (strcmp (name args) RAIL_SVC_CHANNEL_NAME) 0) then ret args else
  match pInterface args with
  | IfaceRail rail =>
      let rail := set_custom client rail in
      let rail := set_ServerExecuteResult (Some Fn_guac_rdp_rail_execute_result) rail in
      let rail := set_ServerHandshake (Some Fn_guac_rdp_rail_handshake) rail in
      let rail := set_ServerHandshakeEx (Some Fn_guac_rdp_rail_handshake_ex) rail in
      guac_client_log client GUAC_LOG_DEBUG "RAIL (RemoteApp) channel connected." [] ;;
      ret {| name := name args; pInterface := IfaceRail rail |}
  | IfaceOther _ => undefined
  end.

(** ** Runs of the sequencer

    [handshake_run rail c s t st t' evs]: started with the transport in
    state [t], for the session at [c] with settings [s], the sequencer
    returns [st], leaves the transport in [t'] and has made the calls
    [evs].  One constructor per return statement of the C function. *)
Definition locked (c : ptr) (e : event) : list event :=
  [EvMutexLock c; e; EvMutexUnlock c].

Inductive handshake_run (rail : RailClientContext) (c : ptr) (s : guac_rdp_settings)
    (t0 : T) : UINT -> T -> list event -> Prop :=
| run_handshake_failed st1 t1 :
    ClientHandshake rail handshake_order t0 = (st1, t1) ->
    st1 <> CHANNEL_RC_OK ->
    handshake_run rail c s t0 st1 t1
      (locked c (EvClientHandshake handshake_order st1))
| run_status_failed t1 st2 t2 :
    ClientHandshake rail handshake_order t0 = (CHANNEL_RC_OK, t1) ->
    ClientInformation rail client_status_order t1 = (st2, t2) ->
    st2 <> CHANNEL_RC_OK ->
    handshake_run rail c s t0 st2 t2
      (locked c (EvClientHandshake handshake_order CHANNEL_RC_OK) ++
       locked c (EvClientInformation client_status_order st2))
| run_sysparam_failed t1 t2 st3 t3 :
    ClientHandshake rail handshake_order t0 = (CHANNEL_RC_OK, t1) ->
    ClientInformation rail client_status_order t1 = (CHANNEL_RC_OK, t2) ->
    ClientSystemParam rail (sysparam_order s) t2 = (st3, t3) ->
    st3 <> CHANNEL_RC_OK ->
    handshake_run rail c s t0 st3 t3
      (locked c (EvClientHandshake handshake_order CHANNEL_RC_OK) ++
       locked c (EvClientInformation client_status_order CHANNEL_RC_OK) ++
       locked c (EvClientSystemParam (sysparam_order s) st3))
| run_executed t1 t2 t3 st4 t4 :
    ClientHandshake rail handshake_order t0 = (CHANNEL_RC_OK, t1) ->
    ClientInformation rail client_status_order t1 = (CHANNEL_RC_OK, t2) ->
    ClientSystemParam rail (sysparam_order s) t2 = (CHANNEL_RC_OK, t3) ->
    ClientExecute rail (exec_order s) t3 = (st4, t4) ->
    handshake_run rail c s t0 st4 t4
      (locked c (EvClientHandshake handshake_order CHANNEL_RC_OK) ++
       locked c (EvClientInformation client_status_order CHANNEL_RC_OK) ++
       locked c (EvClientSystemParam (sysparam_order s) CHANNEL_RC_OK) ++
       locked c (EvClientExecute (exec_order s) st4)).

(** The listener has filled the back-reference and the three callback
    slots of [rail], which is [rail'] afterwards, and has left every other
    member as it was. *)
Definition callbacks_installed (client : option ptr) (rail rail' : RailClientContext)
  : Prop :=
  custom rail' = client /\
  ServerExecuteResult rail' = Some Fn_guac_rdp_rail_execute_result /\
  ServerHandshake rail' = Some Fn_guac_rdp_rail_handshake /\
  ServerHandshakeEx rail' = Some Fn_guac_rdp_rail_handshake_ex /\
  ClientHandshake rail' = ClientHandshake rail /\
  ClientInformation rail' = ClientInformation rail /\
  ClientSystemParam rail' = ClientSystemParam rail /\
  ClientExecute rail' = ClientExecute rail /\
  other_members rail' = other_members rail.

(** ** Executions of the layer

    One step is one call of FreeRDP into the file, with any arguments,
    that returns. *)
Inductive layer_step : world -> world -> Prop :=
| step_channel_connected context args args' w w' :
    guac_rdp_rail_channel_connected context args w = Some (args', w') ->
    layer_step w w'
| step_handshake rail handshake st w w' :
    guac_rdp_rail_handshake rail handshake w = Some (st, w') ->
    layer_step w w'
| step_handshake_ex rail handshake_ex st w w' :
    guac_rdp_rail_handshake_ex rail handshake_ex w = Some (st, w') ->
    layer_step w w'
| step_execute_result rail result st w w' :
    guac_rdp_rail_execute_result rail result w = Some (st, w') ->
    layer_step w w'.

End Rail.

Arguments custom {T R} _.
Arguments ClientHandshake {T R} _ _ _.
Arguments ClientInformation {T R} _ _ _.
Arguments ClientSystemParam {T R} _ _ _.
Arguments ClientExecute {T R} _ _ _.
Arguments ServerExecuteResult {T R} _.
Arguments ServerHandshake {T R} _.
Arguments ServerHandshakeEx {T R} _.
Arguments other_members {T R} _.
Arguments clients {T} _.
Arguments transport {T} _.
Arguments trace {T} _.
Arguments IfaceRail {T R} _.
Arguments IfaceOther {T R} _.
Arguments name {T R} _.
Arguments pInterface {T R} _.
Arguments guac_rdp_rail_complete_handshake {K T R} _ _.
Arguments guac_rdp_rail_execute_result {K T R} _ _ _.
Arguments guac_rdp_rail_handshake {K T R} _ _ _.
Arguments guac_rdp_rail_handshake_ex {K T R} _ _ _.
Arguments guac_rdp_rail_channel_connected {K T R} _ _ _.
Arguments handshake_run {K T R} _ _ _ _ _ _ _.
Arguments callbacks_installed {T R} _ _ _.
Arguments layer_step {K T R} _ _.
Arguments M _ _ : clear implicits.
Arguments ret {T A} _ _.
Arguments bind {T A B} _ _ _.
Arguments undefined {T A} _.
Arguments emit {T} _ _.
Arguments client_settings {T} _ _.
Arguments rdp_client_of {T R} _ _.
Arguments store_lock {T} _ _ _.
Arguments pthread_mutex_lock {T} _ _.
Arguments pthread_mutex_unlock {T} _ _.
Arguments call_send {T O} _ _ _ _.
Arguments guac_client_log {T} _ _ _ _ _.
Arguments guac_client_abort {T} _ _ _ _.
Arguments set_custom {T R} _ _.
Arguments set_ServerExecuteResult {T R} _ _.
Arguments set_ServerHandshake {T R} _ _.
Arguments set_ServerHandshakeEx {T R} _ _.

(** ** What the transport answers

    The primitive of each step, with the record the sequencer builds for
    it from the settings [s]; and the statuses the transport returns, and
    the state it is left in, when the steps of a list are made one after the
    other from the state [t]. *)
Section Answers.

Context {K : RailConstants} {T R : Type}.

Definition send_primitive (rail : RailClientContext T R) (s : guac_rdp_settings)
    (k : rail_send) : T -> UINT * T :=
  match k with
  | SendHandshake => ClientHandshake rail handshake_order
  | SendClientStatus => ClientInformation rail client_status_order
  | SendSysparam => ClientSystemParam rail (sysparam_order s)
  | SendExecute => ClientExecute rail (exec_order s)
  end.

Fixpoint answers (rail : RailClientContext T R) (s : guac_rdp_settings)
    (steps : list rail_send) (t : T) : list UINT * T :=
  match steps with
  | [] => ([], t)
  | k :: rest =>
      let '(st, t1) := send_primitive rail s k t in
      let '(sts, t2) := answers rail s rest t1 in
      (st :: sts, t2)
  end.

(** From the state [t0], the transport makes the first [k] steps of the
    handshake succeed, and is then in the state [t]. *)
Definition succeeds_through (rail : RailClientContext T R) (s : guac_rdp_settings)
    (t0 : T) (k : nat) (t : T) : Prop :=
  answers rail s (take k handshake_steps) t0 = (replicate k CHANNEL_RC_OK, t).

(** From the state [t0], the transport makes the steps before step [k]
    (counted from 1) succeed and step [k] fail with the status [st], and is
    then in the state [t]. *)
Definition fails_at (rail : RailClientContext T R) (s : guac_rdp_settings)
    (t0 : T) (k : nat) (st : UINT) (t : T) : Prop :=
  answers rail s (take k handshake_steps) t0
  = (replicate (k - 1) CHANNEL_RC_OK ++ [st], t) /\
  st <> CHANNEL_RC_OK.

End Answers.

(** The records passed to [ClientSystemParam] and to [ClientExecute], with
    the status each call returned. *)
Definition sysparam_call (e : event) : option (RAIL_SYSPARAM_ORDER * UINT) :=
  match e with
  | EvClientSystemParam o st => Some (o, st)
  | _ => None
  end.

Definition exec_call (e : event) : option (RAIL_EXEC_ORDER * UINT) :=
  match e with
  | EvClientExecute o st => Some (o, st)
  | _ => None
  end.

(** The display size is one that the 16-bit coordinates of the work area
    can hold. *)
Definition display_size_fits (s : guac_rdp_settings) : Prop :=
  0 <= width s < 65536 /\ 0 <= height s < 65536.

(** ** Properties of a run, stated on its calls

    [evs] are the calls of one invocation, in order; [status] is what the
    invocation returned. *)

(** The sends are the first [n] steps of the handshake, in the order of
    the protocol; every send but the last returned success; fewer than four
    sends were made only when the last one failed; the status returned is
    the status of the last send; and it is success exactly when all four
    sends were made and succeeded. *)
Definition sends_in_order (status : UINT) (evs : list event) : Prop :=
  let kinds := omap send_kind evs in
  let sts := omap send_status evs in
  (exists n, (1 <= n <= 4)%nat /\ kinds = take n handshake_steps) /\
  (forall i st, sts !! i = Some st -> (S i < length sts)%nat -> st = CHANNEL_RC_OK) /\
  ((length sts < 4)%nat -> last sts <> Some CHANNEL_RC_OK) /\
  last sts = Some status /\
  (status = CHANNEL_RC_OK <->
   kinds = handshake_steps /\ Forall (fun st => st = CHANNEL_RC_OK) sts).

(** When step [k] (counted from 1) returned a failure, the sends made are
    the steps [1..k] and no other, and the status returned is that of step
    [k]. *)
Definition short_circuits_at (k : nat) (status : UINT) (evs : list event) : Prop :=
  forall st,
    omap send_status evs !! (k - 1)%nat = Some st ->
    st <> CHANNEL_RC_OK ->
    omap send_kind evs = take k handshake_steps /\ status = st.

(** Every call of [ClientExecute] comes after a call of [ClientHandshake]
    that returned success. *)
Definition execute_follows_handshake (evs : list event) : Prop :=
  forall i o st,
    evs !! i = Some (EvClientExecute o st) ->
    exists j h, (j < i)%nat /\ evs !! j = Some (EvClientHandshake h CHANNEL_RC_OK).

(** The calls are one to four sends, each between a lock and an unlock of
    the mutex of the session at [c], and nothing else. *)
Definition one_lock_per_send (c : ptr) (evs : list event) : Prop :=
  exists sends,
    Forall is_send sends /\
    (1 <= length sends <= 4)%nat /\
    evs = concat (map (locked c) sends).

(** A set of flags: the bitwise or of its members. *)
Definition flag_set (fs : list Z) : Z := foldr Z.lor 0 fs.

Definition has_flag (v f : Z) : Prop := Z.land v f = f.

Section RecordContents.

Context {K : RailConstants}.

(** The System-Parameter Record of the specification, for the settings
    [s]. *)
Definition sysparam_as_specified (s : guac_rdp_settings) (o : RAIL_SYSPARAM_ORDER) : Prop :=
  dragFullWindows o = false /\
  hc_flags (highContrast o)
  = flag_set [HCF_AVAILABLE; HCF_CONFIRMHOTKEY; HCF_HOTKEYACTIVE;
              HCF_HOTKEYAVAILABLE; HCF_HOTKEYSOUND; HCF_INDICATOR] /\
  Forall (has_flag (hc_flags (highContrast o)))
    [HCF_AVAILABLE; HCF_CONFIRMHOTKEY; HCF_HOTKEYACTIVE;
     HCF_HOTKEYAVAILABLE; HCF_HOTKEYSOUND; HCF_INDICATOR] /\
  keyboardCues o = false /\
  keyboardPref o = false /\
  mouseButtonSwap o = false /\
  workArea o = {| left := 0; top := 0; right := width s; bottom := height s |} /\
  params o
  = flag_set [SPI_MASK_SET_DRAG_FULL_WINDOWS; SPI_MASK_SET_HIGH_CONTRAST;
              SPI_MASK_SET_KEYBOARD_CUES; SPI_MASK_SET_KEYBOARD_PREF;
              SPI_MASK_SET_MOUSE_BUTTON_SWAP; SPI_MASK_SET_WORK_AREA].

(** The Execute Record of the specification, for the settings [s]. *)
Definition exec_as_configured (s : guac_rdp_settings) (o : RAIL_EXEC_ORDER) : Prop :=
  RemoteApplicationProgram o = remote_app s /\
  RemoteApplicationWorkingDir o = remote_app_dir s /\
  RemoteApplicationArguments o = remote_app_args s /\
  exec_flags o = RAIL_EXEC_FLAG_EXPAND_ARGUMENTS.

End RecordContents.

(** ** A concrete session

    A transport that answers the sends from a script: each send takes the
    next status of the list, and succeeds once the list is exhausted. *)
Definition scripted_send {O : Type} (o : O) (script : list UINT) : UINT * list UINT :=
  match script with
  | [] => (CHANNEL_RC_OK, [])
  | st :: rest => (st, rest)
  end.

Definition demo_settings : guac_rdp_settings :=
  {| width := 1024;
     height := 768;
     remote_app := Some "/usr/bin/notepad";
     remote_app_dir := None;
     remote_app_args := Some "--readonly" |}.

Definition demo_client : guac_client :=
  {| data := {| settings := demo_settings; message_lock := MutexUnlocked |} |}.

Definition demo_rail : RailClientContext (list UINT) unit :=
  {| custom := Some 1%N;
     ClientHandshake := scripted_send;
     ClientInformation := scripted_send;
     ClientSystemParam := scripted_send;
     ClientExecute := scripted_send;
     ServerExecuteResult := None;
     ServerHandshake := None;
     ServerHandshakeEx := None;
     other_members := tt |}.

Definition demo_context : rdp_freerdp_context := {| client := Some 1%N |}.

Definition demo_args : ChannelConnectedEventArgs (list UINT) unit :=
  {| name := "rail"; pInterface := IfaceRail demo_rail |}.

Definition demo_other_args : ChannelConnectedEventArgs (list UINT) unit :=
  {| name := "rdpdr"; pInterface := IfaceOther 2%N |}.

Definition demo_world (script : list UINT) : world (list UINT) :=
  {| clients := {[ 1%N := demo_client ]};
     transport := script;
     trace := [] |}.

(** ** Properties of whole executions *)

(** Every send of the trace has a lock of some session's mutex right
    before it and the unlock of the same mutex right after it. *)
Definition sends_bracketed (tr : list event) : Prop :=
  forall i e,
    tr !! i = Some e ->
    is_send e ->
    exists c j,
      i = S j /\
      tr !! j = Some (EvMutexLock c) /\
      tr !! S i = Some (EvMutexUnlock c).

(** No session's message lock is held. *)
Definition all_unlocked (h : gmap ptr guac_client) : Prop :=
  forall q g, h !! q = Some g -> message_lock (data g) = MutexUnlocked.

(** The same sessions are live in [h] and [h'], with the same settings. *)
Definition same_settings (h h' : gmap ptr guac_client) : Prop :=
  forall q,
    (fun g => settings (data g)) <$> h' !! q = (fun g => settings (data g)) <$> h !! q.

Section FixedFields.

Context {K : RailConstants}.

(** What is constant in the calls of the file, whatever the session: the
    members of the records that the initialisers set to literals, the status
    and the message of an abort. *)
Definition fixed_fields (e : event) : Prop :=
  match e with
  | EvClientHandshake o _ => buildNumber o = 7600
  | EvClientInformation o _ => status_flags o = 0
  | EvClientSystemParam o _ =>
      dragFullWindows o = false /\
      keyboardCues o = false /\
      keyboardPref o = false /\
      mouseButtonSwap o = false /\
      colorScheme (highContrast o) = {| us_length := 0; us_string := None |} /\
      left (workArea o) = 0 /\
      top (workArea o) = 0
  | EvClientExecute o _ => exec_flags o = RAIL_EXEC_FLAG_EXPAND_ARGUMENTS
  | EvClientAbort _ st msg =>
      st = GUAC_PROTOCOL_STATUS_UPSTREAM_UNAVAILABLE /\
      msg = "Failed to execute RAIL command."
  | EvClientLog _ level _ _ => level = GUAC_LOG_DEBUG
  | EvMutexLock _ | EvMutexUnlock _ => True
  end.

End FixedFields.

(** ** Loading the plugin *)

(** The handlers of channel-connected events that can be subscribed, as
    function pointers. *)
Inductive pubsub_handler :=
| Fn_guac_rdp_rail_channel_connected
| HandlerForeign (addr : N).

Section Plugin.

Context {K : RailConstants}.

Variable T : Type.

(** FreeRDP's [wPubSub] and its [PubSub_SubscribeChannelConnected], the
    plugin loader [guac_freerdp_channels_load_plugin] of
    [plugins/channels.c] (on the state of FreeRDP; its result is zero on
    success) and the level [GUAC_LOG_WARNING] are declared outside the
    sources: they are parameters. *)
Variable P : Type.
Variable PubSub_SubscribeChannelConnected : P -> pubsub_handler -> P.
Variable guac_freerdp_channels_load_plugin : string -> T -> Z * T.
Variable GUAC_LOG_WARNING : Z.

Definition call_load_plugin (plugin : string) : M T Z :=
  fun w => let '(rc, t) := guac_freerdp_channels_load_plugin plugin (transport w) in
           Some (rc, {| clients := clients w; transport := t; trace := trace w |}).

(** [context->pubSub] is passed in and returned as the call leaves it. *)
Definition guac_rdp_rail_load_plugin (context : rdp_freerdp_context) (pubSub : P)
  : M T P :=
  let client := client context in
  (* Attempt to load FreeRDP support for the RAIL channel *)
  bind (call_load_plugin "rail") (fun rc =>
  if negb (Z.eqb rc 0) then
    bind (guac_client_log client GUAC_LOG_WARNING
            ("Support for the RAIL channel (RemoteApp) could not be "
             +:+ "loaded. This support normally takes the form of a plugin "
             +:+ "which is built into FreeRDP. Lacking this support, "
             +:+ "RemoteApp will not work.") [])
         (fun _ => ret pubSub)
  else
    (* Complete RDP side of initialization when channel is connected *)
    let pubSub :=
      PubSub_SubscribeChannelConnected pubSub Fn_guac_rdp_rail_channel_connected in
    bind (guac_client_log client GUAC_LOG_DEBUG
            ("Support for RAIL (RemoteApp) "
             +:+ "registered. Awaiting channel connection.") [])
         (fun _ => ret pubSub)).

End Plugin.

Arguments call_load_plugin {T} _ _ _.
Arguments guac_rdp_rail_load_plugin {K T P} _ _ _ _ _ _.

(** ** The concrete session, continued *)

(** The world a handshake leaves. *)
Definition demo_after (script : list UINT) : world (list UINT) :=
  match guac_rdp_rail_complete_handshake (K := freerdp2_constants) demo_rail
          (demo_world script) with
  | Some (_, w') => w'
  | None => demo_world script
  end.

(** A channel context as FreeRDP allocates it, before the listener has
    seen it: no back-reference, callbacks of FreeRDP's own. *)
Definition fresh_rail : RailClientContext (list UINT) unit :=
  {| custom := None;
     ClientHandshake := scripted_send;
     ClientInformation := scripted_send;
     ClientSystemParam := scripted_send;
     ClientExecute := scripted_send;
     ServerExecuteResult := Some (FnForeign 7);
     ServerHandshake := None;
     ServerHandshakeEx := None;
     other_members := tt |}.

Definition fresh_args : ChannelConnectedEventArgs (list UINT) unit :=
  {| name := "rail"; pInterface := IfaceRail fresh_rail |}.

(** The arguments and the world the listener leaves for [fresh_args],
    from the world in which nothing has happened. *)
Definition connected_args : ChannelConnectedEventArgs (list UINT) unit :=
  {| name := "rail";
     pInterface :=
       IfaceRail
         {| custom := Some 1%N;
            ClientHandshake := scripted_send;
            ClientInformation := scripted_send;
            ClientSystemParam := scripted_send;
            ClientExecute := scripted_send;
            ServerExecuteResult := Some Fn_guac_rdp_rail_execute_result;
            ServerHandshake := Some Fn_guac_rdp_rail_handshake;
            ServerHandshakeEx := Some Fn_guac_rdp_rail_handshake_ex;
            other_members := tt |} |}.

Definition connected_world : world (list UINT) :=
  {| clients := {[ 1%N := demo_client ]};
     transport := [];
     trace := [EvClientLog (Some 1%N) 7 "RAIL (RemoteApp) channel connected." []] |}.

(** The world after a handshake whose four sends succeed and a report of
    the server that the program could not be run (code 3). *)
Definition demo_aborted : world (list UINT) :=
  match guac_rdp_rail_execute_result (K := freerdp2_constants) demo_rail
          {| execResult := 3 |} (demo_after []) with
  | Some (_, w') => w'
  | None => demo_after []
  end.

(** A plugin loader that fails when the transport's script starts with a
    non-zero status. *)
Definition scripted_load (plugin : string) (script : list UINT) : Z * list UINT :=
  match script with
  | [] => (0, [])
  | rc :: rest => (rc, rest)
  end.

(** * Verification *)

Section RailFacts.

Context {K : RailConstants} {T R : Type}.
Implicit Types (rail : RailClientContext T R) (w : world T) (c : ptr).

Lemma string_compare_refl (a : string) : String.compare a a = Eq.
Proof.
  pose proof (String.compare_antisym a a) as H.
  destruct (String.compare a a); [reflexivity | discriminate H | discriminate H].
Qed.

Lemma strcmp_eq_0 (a b : string) : strcmp a b = 0 <-> a = b.
Proof.
  unfold strcmp. split.
  - destruct (String.compare a b) eqn:E; [| discriminate | discriminate].
    intros _. by apply String.compare_eq_iff.
  - intros ->. by rewrite string_compare_refl.
Qed.

Lemma set_message_lock_twice m m' g :
  set_message_lock m (set_message_lock m' g) = set_message_lock m g.
Proof. reflexivity. Qed.

Lemma locked_send_run {O A : Type} c g (f : O -> T -> UINT * T) ev (o : O)
    (k : UINT -> M T A) w :
  clients w !! c = Some g ->
  bind (pthread_mutex_lock c)
    (fun _ => bind (call_send f ev o)
       (fun status => bind (pthread_mutex_unlock c) (fun _ => k status))) w
  = k (f o (transport w)).1
      {| clients := <[c := set_message_lock MutexUnlocked g]> (clients w);
         transport := (f o (transport w)).2;
         trace := trace w ++ locked c (ev o (f o (transport w)).1) |}.
Proof.
  intros Hg.
  unfold bind, pthread_mutex_lock, pthread_mutex_unlock, call_send, emit, store_lock, bind.
  cbn [clients transport trace].
  rewrite Hg. cbn [clients transport trace].
  destruct (f o (transport w)) as [st t]. cbn [clients transport trace fst snd].
  rewrite lookup_insert_eq. rewrite set_message_lock_twice, insert_insert_eq.
  unfold locked. rewrite <- !app_assoc. reflexivity.
Qed.

Ltac next_send c g :=
  rewrite (locked_send_run c (set_message_lock MutexUnlocked g))
    by (cbn [clients]; apply lookup_insert_eq);
  cbn [clients transport trace];
  rewrite set_message_lock_twice, insert_insert_eq, <- ?app_assoc.

Ltac read_settings :=
  unfold bind at 1; unfold client_settings; cbn [clients];
  rewrite lookup_insert_eq; cbn [settings data set_message_lock].

Lemma complete_handshake_run rail w c g :
  custom rail = Some c ->
  clients w !! c = Some g ->
  exists st t evs,
    guac_rdp_rail_complete_handshake rail w
    = Some (st, {| clients := <[c := set_message_lock MutexUnlocked g]> (clients w);
                   transport := t;
                   trace := trace w ++ evs |})
    /\ handshake_run rail c (settings (data g)) (transport w) st t evs.
Proof.
  intros Hc Hg.
  unfold guac_rdp_rail_complete_handshake.
  unfold bind at 1. unfold rdp_client_of. rewrite Hc, Hg.
  rewrite (locked_send_run c g) by assumption.
  destruct (ClientHandshake rail handshake_order (transport w)) as [st1 t1] eqn:E1.
  cbn [fst snd].
  destruct (Z.eqb_spec st1 CHANNEL_RC_OK) as [->|N1]; cbn [negb].
  2:{ eexists _, _, _. split; [reflexivity|]. by constructor. }
  next_send c g.
  destruct (ClientInformation rail _ _) as [st2 t2] eqn:E2; cbn [fst snd].
  destruct (Z.eqb_spec st2 CHANNEL_RC_OK) as [->|N2]; cbn [negb].
  2:{ eexists _, _, _. split; [reflexivity|]. by econstructor 2. }
  read_settings. next_send c g.
  destruct (ClientSystemParam rail _ _) as [st3 t3] eqn:E3; cbn [fst snd].
  destruct (Z.eqb_spec st3 CHANNEL_RC_OK) as [->|N3]; cbn [negb].
  2:{ eexists _, _, _. split; [reflexivity|]. by econstructor 3. }
  read_settings. next_send c g.
  destruct (ClientExecute rail _ _) as [st4 t4] eqn:E4; cbn [fst snd].
  eexists _, _, _. split; [reflexivity|]. by econstructor 4.
Qed.

(** ** The handshake sequencer *)

Lemma handshake_run_sends_in_order rail c s t0 st t evs :
  handshake_run rail c s t0 st t evs -> sends_in_order st evs.
Proof.
  intros Hrun. unfold sends_in_order.
  inversion Hrun; subst; cbn.
  - split; [exists 1%nat; split; [lia | reflexivity] |].
    split; [intros [|i] st' Hi Hlt; cbn in *; lia |].
    split; [intros _; congruence |].
    split; [reflexivity |].
    split; [done | intros [Hk _]; discriminate Hk].
  - split; [exists 2%nat; split; [lia | reflexivity] |].
    split.
    { intros [|[|i]] st' Hi Hlt; cbn in *; try lia. congruence. }
    split; [intros _; congruence |].
    split; [reflexivity |].
    split; [done | intros [Hk _]; discriminate Hk].
  - split; [exists 3%nat; split; [lia | reflexivity] |].
    split.
    { intros [|[|[|i]]] st' Hi Hlt; cbn in *; try lia; congruence. }
    split; [intros _; congruence |].
    split; [reflexivity |].
    split; [done | intros [Hk _]; discriminate Hk].
  - split; [exists 4%nat; split; [lia | reflexivity] |].
    split.
    { intros [|[|[|[|i]]]] st' Hi Hlt; cbn in *; try lia; congruence. }
    split; [intros Hlt; lia |].
    split; [reflexivity |].
    split.
    + intros ->. split; [reflexivity | repeat constructor].
    + intros [_ Hall]. rewrite !Forall_cons in Hall. tauto.
Qed.


(** What the transport answers to the steps of a run: case analysis on
    the answers [Hans] against the equations of the run in the context. *)
Ltac split_answers Hans :=
  cbn in Hans;
  repeat match type of Hans with
         | context [match ?f ?o ?t with pair _ _ => _ end] =>
             lazymatch goal with
             | H : f o t = (_, _) |- _ => rewrite H in Hans
             | _ => let E := fresh "E" in destruct (f o t) as [? ?] eqn:E
             end;
             cbn in Hans
         end;
  simplify_eq.

(** C2: for every step [k] between 1 and 4: in the calls of an
    invocation, when the [k]-th send returned a status other than
    [CHANNEL_RC_OK], the steps after it were not made and the sequencer
    returned that status; and when the transport makes the steps before
    step [k] succeed and step [k] fail with [st], the sequencer makes
    exactly the steps 1 to [k], leaves the transport as step [k] left it,
    and returns [st]. *)
Theorem complete_handshake_short_circuit rail w c g (k : nat) :
  custom rail = Some c ->
  clients w !! c = Some g ->
  (1 <= k <= 4)%nat ->
  exists status w' evs,
    guac_rdp_rail_complete_handshake rail w = Some (status, w') /\
    trace w' = trace w ++ evs /\
    short_circuits_at k status evs /\
    forall st t,
      fails_at rail (settings (data g)) (transport w) k st t ->
      status = st /\
      transport w' = t /\
      omap send_kind evs = take k handshake_steps /\
      omap send_status evs = replicate (k - 1) CHANNEL_RC_OK ++ [st].
Proof.
  intros Hc Hg Hk.
  destruct (complete_handshake_run rail w c g Hc Hg) as (st & t & evs & Heq & Hrun).
  eexists _, _, _. split; [exact Heq |]. split; [reflexivity |].
  assert (Hcases : k = 1%nat \/ k = 2%nat \/ k = 3%nat \/ k = 4%nat) by lia.
  split.
  - unfold short_circuits_at.
    inversion Hrun; subst; cbn;
      destruct Hcases as [-> | [-> | [-> | ->]]]; cbn;
      intros st' Hst' Hne; simplify_eq; try done.
  - intros st' t' [Hans Hne]. cbn [transport].
    inversion Hrun; subst;
      destruct Hcases as [-> | [-> | [-> | ->]]];
      split_answers Hans; try congruence; by repeat split.
Qed.

Lemma handshake_run_execute_follows rail c s t0 st t evs :
  handshake_run rail c s t0 st t evs -> execute_follows_handshake evs.
Proof.
  intros Hrun i o st' Hi.
  inversion Hrun; subst;
    do 12 (try (destruct i as [|i]; [cbn in Hi; try discriminate Hi |]));
    try (cbn in Hi; discriminate Hi).
  exists 1%nat, handshake_order. split; [lia | reflexivity].
Qed.

(** C3: in every invocation of the sequencer, a call of [ClientExecute]
    is preceded by a call of [ClientHandshake] of the same invocation that
    returned [CHANNEL_RC_OK]. *)
Theorem execute_after_handshake rail w c g :
  custom rail = Some c ->
  clients w !! c = Some g ->
  exists status w' evs,
    guac_rdp_rail_complete_handshake rail w = Some (status, w') /\
    trace w' = trace w ++ evs /\
    execute_follows_handshake evs.
Proof.
  intros Hc Hg.
  destruct (complete_handshake_run rail w c g Hc Hg) as (st & t & evs & Heq & Hrun).
  eexists _, _, _. split; [exact Heq |]. split; [reflexivity |].
  by eapply handshake_run_execute_follows.
Qed.


(** ** The execute-result handler *)

(** C4: [guac_rdp_rail_execute_result] always returns [CHANNEL_RC_OK];
    when the result code is [RAIL_EXEC_S_OK] it calls nothing, and otherwise
    it calls [guac_client_abort] exactly once, for the client of the
    channel, with [GUAC_PROTOCOL_STATUS_UPSTREAM_UNAVAILABLE]. *)
Theorem execute_result_abort (context : RailClientContext T R)
    (result : RAIL_EXEC_RESULT_ORDER) w :
  exists w' evs,
    guac_rdp_rail_execute_result context result w = Some (CHANNEL_RC_OK, w') /\
    clients w' = clients w /\
    transport w' = transport w /\
    trace w' = trace w ++ evs /\
    ((execResult result = RAIL_EXEC_S_OK /\ evs = []) \/
     (execResult result <> RAIL_EXEC_S_OK /\
      omap abort_call evs
      = [(custom context, GUAC_PROTOCOL_STATUS_UPSTREAM_UNAVAILABLE,
          "Failed to execute RAIL command.")])).
Proof.
  unfold guac_rdp_rail_execute_result, bind, guac_client_log, guac_client_abort,
    emit, ret.
  destruct (Z.eqb_spec (execResult result) RAIL_EXEC_S_OK) as [Hok | Hko];
    cbn [negb clients transport trace].
  - exists w, []. rewrite app_nil_r. destruct w; cbn. tauto.
  - eexists _, _. split; [reflexivity |]. cbn [clients transport trace].
    rewrite <- app_assoc.
    split; [reflexivity |]. split; [reflexivity |]. split; [reflexivity |].
    right. split; [assumption | reflexivity].
Qed.

(** ** The records of steps 3 and 4 *)

Lemma has_flag_lor_l v f g : has_flag v f -> has_flag (Z.lor g v) f.
Proof.
  unfold has_flag. intros Hv. apply Z.bits_inj'. intros n _.
  assert (Hb : Z.testbit f n = Z.testbit v n && Z.testbit f n)
    by (rewrite <- Z.land_spec, Hv; reflexivity).
  rewrite Z.land_spec, Z.lor_spec.
  destruct (Z.testbit g n), (Z.testbit v n), (Z.testbit f n);
    cbn in *; congruence.
Qed.

Lemma has_flag_lor_r f g : has_flag (Z.lor f g) f.
Proof.
  unfold has_flag. apply Z.bits_inj'. intros n _.
  rewrite Z.land_spec, Z.lor_spec.
  destruct (Z.testbit f n), (Z.testbit g n); reflexivity.
Qed.

(** A set of flags has each of its members. *)
Lemma flag_set_has (fs : list Z) : Forall (has_flag (flag_set fs)) fs.
Proof.
  induction fs as [| f fs IH]; [constructor |].
  cbn [flag_set foldr]. constructor.
  - apply has_flag_lor_r.
  - eapply Forall_impl; [exact IH |]. intros g Hg. by apply has_flag_lor_l.
Qed.

(** The chain of [|] of the C initialiser, from the left, is the set. *)
Lemma lor_chain_flag_set (f1 f2 f3 f4 f5 f6 : Z) :
  Z.lor (Z.lor (Z.lor (Z.lor (Z.lor f1 f2) f3) f4) f5) f6
  = flag_set [f1; f2; f3; f4; f5; f6].
Proof. cbn. rewrite Z.lor_0_r, !Z.lor_assoc. reflexivity. Qed.

Lemma sysparam_order_as_specified (s : guac_rdp_settings) :
  sysparam_as_specified s (sysparam_order s).
Proof.
  unfold sysparam_as_specified, sysparam_order; cbn.
  rewrite !lor_chain_flag_set.
  repeat split. apply flag_set_has.
Qed.

Lemma handshake_run_records rail c s t0 st t evs :
  handshake_run rail c s t0 st t evs ->
  (forall o r, EvClientSystemParam o r ∈ evs -> o = sysparam_order s) /\
  (forall o r, EvClientExecute o r ∈ evs -> o = exec_order s).
Proof.
  intros Hrun.
  inversion Hrun; subst; unfold locked; cbn;
    split; intros o r Hin; repeat (apply elem_of_cons in Hin as [Hin | Hin]);
    try discriminate Hin; try (by apply elem_of_nil in Hin); congruence.
Qed.

(** C5: in every invocation of the sequencer for a live session whose
    display size fits the coordinates of the work area, every record passed
    to [ClientSystemParam] has [dragFullWindows], [keyboardCues],
    [keyboardPref] and [mouseButtonSwap] false, the six high-contrast flags
    set, the work area (0, 0, width, height) of the session's settings, and
    the six [SPI_MASK_SET_...] masks as [params]; and when the first two
    sends succeed, [ClientSystemParam] is called, once, with such a
    record. *)
Theorem sysparam_record rail w c g :
  custom rail = Some c ->
  clients w !! c = Some g ->
  display_size_fits (settings (data g)) ->
  exists status w' evs,
    guac_rdp_rail_complete_handshake rail w = Some (status, w') /\
    trace w' = trace w ++ evs /\
    (forall o r, EvClientSystemParam o r ∈ evs ->
       sysparam_as_specified (settings (data g)) o) /\
    forall t2,
      succeeds_through rail (settings (data g)) (transport w) 2 t2 ->
      exists o r t3,
        ClientSystemParam rail o t2 = (r, t3) /\
        omap sysparam_call evs = [(o, r)] /\
        sysparam_as_specified (settings (data g)) o.
Proof.
  intros Hc Hg _.
  destruct (complete_handshake_run rail w c g Hc Hg) as (st & t & evs & Heq & Hrun).
  eexists _, _, _. split; [exact Heq |]. split; [reflexivity |].
  split.
  - intros o r Hin.
    apply handshake_run_records in Hrun as [Hsys _].
    rewrite (Hsys o r Hin). apply sysparam_order_as_specified.
  - intros t2 Hans. unfold succeeds_through in Hans.
    inversion Hrun; subst; split_answers Hans; try congruence;
      eexists (sysparam_order (settings (data g))), _, _;
      (split; [eassumption |]);
      (split; [reflexivity | apply sysparam_order_as_specified]).
Qed.

(** C6: in every invocation of the sequencer for a live session, every
    record passed to [ClientExecute] carries the program, the working
    directory and the arguments of the session's settings as they are, and
    its flags are [RAIL_EXEC_FLAG_EXPAND_ARGUMENTS]; and when the first three
    sends succeed, [ClientExecute] is called, once, with such a record, and
    its status is what the sequencer returns. *)
Theorem exec_record rail w c g :
  custom rail = Some c ->
  clients w !! c = Some g ->
  exists status w' evs,
    guac_rdp_rail_complete_handshake rail w = Some (status, w') /\
    trace w' = trace w ++ evs /\
    (forall o r, EvClientExecute o r ∈ evs ->
       exec_as_configured (settings (data g)) o) /\
    forall t3,
      succeeds_through rail (settings (data g)) (transport w) 3 t3 ->
      exists o t4,
        ClientExecute rail o t3 = (status, t4) /\
        transport w' = t4 /\
        omap exec_call evs = [(o, status)] /\
        exec_as_configured (settings (data g)) o.
Proof.
  intros Hc Hg.
  destruct (complete_handshake_run rail w c g Hc Hg) as (st & t & evs & Heq & Hrun).
  eexists _, _, _. split; [exact Heq |]. split; [reflexivity |].
  split.
  - intros o r Hin.
    apply handshake_run_records in Hrun as [_ Hexec].
    rewrite (Hexec o r Hin). repeat split.
  - intros t3 Hans. unfold succeeds_through in Hans. cbn [transport].
    inversion Hrun; subst; split_answers Hans; try congruence.
    eexists (exec_order (settings (data g))), _.
    split; [eassumption |]. by repeat split.
Qed.


(** ** The channel listener *)

(** C7: a channel-connected event for a channel that is not RAIL leaves
    the arguments and the world as they are: no callback is installed and
    nothing is called.  For the RAIL channel, the listener returns with
    [custom] set to the client of the session and the three callbacks
    installed, every other member of the channel context being as before;
    it sends no record. *)
Theorem channel_connected_listener (context : rdp_freerdp_context)
    (args : ChannelConnectedEventArgs T R) w :
  (name args = RAIL_SVC_CHANNEL_NAME -> exists rail, pInterface args = IfaceRail rail) ->
  exists args' w',
    guac_rdp_rail_channel_connected context args w = Some (args', w') /\
    ((name args <> RAIL_SVC_CHANNEL_NAME /\ args' = args /\ w' = w) \/
     (name args = RAIL_SVC_CHANNEL_NAME /\
      exists rail rail' evs,
        pInterface args = IfaceRail rail /\
        name args' = name args /\
        pInterface args' = IfaceRail rail' /\
        callbacks_installed (client context) rail rail' /\
        clients w' = clients w /\
        transport w' = transport w /\
        trace w' = trace w ++ evs /\
        omap send_kind evs = [])).
Proof.
  intros Hiface. unfold guac_rdp_rail_channel_connected.
  destruct (Z.eqb_spec (strcmp (name args) RAIL_SVC_CHANNEL_NAME) 0) as [Heq | Hne];
    cbn [negb].
  - apply strcmp_eq_0 in Heq.
    destruct (Hiface Heq) as [rail Hrail]. rewrite Hrail.
    eexists _, _. split; [reflexivity |]. right. split; [exact Heq |].
    eexists rail, _, _. split; [reflexivity |].
    cbn. unfold callbacks_installed. cbn. by repeat split.
  - exists args, w. split; [reflexivity |]. left.
    split; [| done]. intros Heq. apply Hne. by apply strcmp_eq_0.
Qed.

(** ** The lock *)

(** C8: in every invocation of the sequencer for a live session whose
    message mutex the calling thread does not hold at entry, the calls are
    one to four sends, each with one lock of the session's message mutex
    right before it and one unlock right after it; when the function
    returns, the mutex is not held. *)
Theorem lock_discipline rail w c g :
  custom rail = Some c ->
  clients w !! c = Some g ->
  message_lock (data g) = MutexUnlocked ->
  exists status w' evs,
    guac_rdp_rail_complete_handshake rail w = Some (status, w') /\
    trace w' = trace w ++ evs /\
    one_lock_per_send c evs /\
    exists g', clients w' !! c = Some g' /\ message_lock (data g') = MutexUnlocked.
Proof.
  intros Hc Hg _.
  destruct (complete_handshake_run rail w c g Hc Hg) as (st & t & evs & Heq & Hrun).
  eexists _, _, _. split; [exact Heq |]. split; [reflexivity |]. split.
  - unfold one_lock_per_send.
    inversion Hrun; subst.
    + exists [EvClientHandshake handshake_order st].
      split; [repeat constructor; by eexists |]. cbn. split; [lia | reflexivity].
    + exists [EvClientHandshake handshake_order CHANNEL_RC_OK;
              EvClientInformation client_status_order st].
      split; [repeat constructor; by eexists |]. cbn. split; [lia | reflexivity].
    + exists [EvClientHandshake handshake_order CHANNEL_RC_OK;
              EvClientInformation client_status_order CHANNEL_RC_OK;
              EvClientSystemParam (sysparam_order (settings (data g))) st].
      split; [repeat constructor; by eexists |]. cbn. split; [lia | reflexivity].
    + exists [EvClientHandshake handshake_order CHANNEL_RC_OK;
              EvClientInformation client_status_order CHANNEL_RC_OK;
              EvClientSystemParam (sysparam_order (settings (data g))) CHANNEL_RC_OK;
              EvClientExecute (exec_order (settings (data g))) st].
      split; [repeat constructor; by eexists |]. cbn. split; [lia | reflexivity].
  - exists (set_message_lock MutexUnlocked g). cbn [clients].
    split; [apply lookup_insert_eq | reflexivity].
Qed.

(** ** The two handshake callbacks *)

(** C9: the callback for the HandshakeEx PDU and the callback for the
    Handshake PDU are both the sequencer applied to the channel context:
    from the same world they make the same calls and return the same
    status. *)
Theorem handshake_ex_same rail (handshake : RAIL_HANDSHAKE_ORDER)
    (handshake_ex : RAIL_HANDSHAKE_EX_ORDER) :
  guac_rdp_rail_handshake_ex rail handshake_ex = guac_rdp_rail_complete_handshake rail /\
  guac_rdp_rail_handshake rail handshake = guac_rdp_rail_complete_handshake rail /\
  forall w, guac_rdp_rail_handshake_ex rail handshake_ex w
            = guac_rdp_rail_handshake rail handshake w.
Proof. repeat split. Qed.

(** ** The configuration *)

(** C10: every invocation of the sequencer for a live session returns
    with the settings of the session (display size, program, working
    directory, arguments) as they were: the only object written is the
    session's, the only member written its lock, and every other session is
    untouched. *)
Theorem configuration_unchanged rail w c g :
  custom rail = Some c ->
  clients w !! c = Some g ->
  exists status w' evs,
    guac_rdp_rail_complete_handshake rail w = Some (status, w') /\
    trace w' = trace w ++ evs /\
    exists g',
      clients w' !! c = Some g' /\
      settings (data g') = settings (data g) /\
      clients w' = <[c := set_message_lock (message_lock (data g')) g]> (clients w) /\
      forall q, q <> c -> clients w' !! q = clients w !! q.
Proof.
  intros Hc Hg.
  destruct (complete_handshake_run rail w c g Hc Hg) as (st & t & evs & Heq & Hrun).
  eexists _, _, _. split; [exact Heq |]. split; [reflexivity |].
  exists (set_message_lock MutexUnlocked g). cbn [clients].
  split; [apply lookup_insert_eq |].
  split; [reflexivity |].
  split; [reflexivity |].
  intros q Hq. by apply lookup_insert_ne.
Qed.


(** ** Executions of the layer *)

Lemma execute_follows_handshake_app (tr evs : list event) :
  execute_follows_handshake tr ->
  execute_follows_handshake evs ->
  execute_follows_handshake (tr ++ evs).
Proof.
  intros Htr Hevs i o st Hi.
  apply lookup_app_Some in Hi as [Hi | [Hlen Hi]].
  - destruct (Htr i o st Hi) as (j & h & Hlt & Hj).
    exists j, h. split; [exact Hlt |]. by apply lookup_app_l_Some.
  - destruct (Hevs _ o st Hi) as (j & h & Hlt & Hj).
    exists (length tr + j)%nat, h. split; [lia |].
    rewrite lookup_app_r by lia.
    replace (length tr + j - length tr)%nat with j by lia. exact Hj.
Qed.

Lemma execute_follows_handshake_no_send (evs : list event) :
  omap send_kind evs = [] -> execute_follows_handshake evs.
Proof.
  intros Hnone i o st Hi.
  assert (Hin : SendExecute ∈ omap send_kind evs).
  { apply list_elem_of_omap. exists (EvClientExecute o st).
    split; [by eapply list_elem_of_lookup_2 | reflexivity]. }
  rewrite Hnone in Hin. by apply elem_of_nil in Hin.
Qed.

Lemma complete_handshake_live rail w st w' :
  guac_rdp_rail_complete_handshake rail w = Some (st, w') ->
  exists c g, custom rail = Some c /\ clients w !! c = Some g.
Proof.
  unfold guac_rdp_rail_complete_handshake. unfold bind at 1. unfold rdp_client_of.
  destruct (custom rail) as [c |]; [| discriminate].
  destruct (clients w !! c) as [g |] eqn:Hg; [| discriminate].
  intros _. by exists c, g.
Qed.

Lemma complete_handshake_keeps_order rail w st w' :
  guac_rdp_rail_complete_handshake rail w = Some (st, w') ->
  execute_follows_handshake (trace w) ->
  execute_follows_handshake (trace w').
Proof.
  intros Heq Htr.
  destruct (complete_handshake_live _ _ _ _ Heq) as (c & g & Hc & Hg).
  destruct (complete_handshake_run rail w c g Hc Hg) as (st0 & t & evs & Heq0 & Hrun).
  rewrite Heq0 in Heq. injection Heq as _ <-. cbn [trace].
  apply execute_follows_handshake_app; [exact Htr |].
  by eapply handshake_run_execute_follows.
Qed.

Lemma layer_step_keeps_order (w w' : world T) :
  layer_step (R := R) w w' ->
  execute_follows_handshake (trace w) ->
  execute_follows_handshake (trace w').
Proof.
  intros Hstep Htr. destruct Hstep as
    [context args args' w w' Heq | rail h st w w' Heq
    | rail hx st w w' Heq | rail result st w w' Heq].
  - unfold guac_rdp_rail_channel_connected in Heq.
    destruct (negb _); [injection Heq as _ <-; exact Htr |].
    destruct (pInterface args); [| discriminate Heq].
    injection Heq as _ <-. cbn [trace].
    apply execute_follows_handshake_app; [exact Htr |].
    by apply execute_follows_handshake_no_send.
  - by eapply complete_handshake_keeps_order.
  - by eapply complete_handshake_keeps_order.
  - unfold guac_rdp_rail_execute_result, bind, guac_client_log, guac_client_abort,
      emit, ret in Heq.
    destruct (negb _); injection Heq as _ <-; [| exact Htr]. cbn [trace].
    rewrite <- app_assoc.
    apply execute_follows_handshake_app; [exact Htr |].
    by apply execute_follows_handshake_no_send.
Qed.

(** X8: whatever FreeRDP calls, and in whatever order, from a world in
    which nothing has been sent: no Client Execute PDU is ever sent before a
    Handshake PDU has been sent with success. *)
Lemma layer_execute_after_handshake (w w' : world T) :
  rtc (layer_step (R := R)) w w' ->
  trace w = [] ->
  execute_follows_handshake (trace w').
Proof.
  intros Hsteps Hnil.
  assert (Hstart : execute_follows_handshake (trace w)).
  { rewrite Hnil. by apply execute_follows_handshake_no_send. }
  clear Hnil. induction Hsteps as [w | w w1 w2 Hstep _ IH]; [exact Hstart |].
  apply IH. by eapply layer_step_keeps_order.
Qed.


(** ** A run through the primitives of another context *)

Lemma handshake_run_same_sends (rail1 rail2 : RailClientContext T R) c s t0 st t evs :
  ClientHandshake rail1 = ClientHandshake rail2 ->
  ClientInformation rail1 = ClientInformation rail2 ->
  ClientSystemParam rail1 = ClientSystemParam rail2 ->
  ClientExecute rail1 = ClientExecute rail2 ->
  handshake_run rail1 c s t0 st t evs ->
  handshake_run rail2 c s t0 st t evs.
Proof.
  intros H1 H2 H3 H4 Hrun.
  inversion Hrun; subst;
    rewrite ?H1, ?H2, ?H3, ?H4 in *;
    [ by econstructor 1 | by econstructor 2 | by econstructor 3 | by econstructor 4 ].
Qed.

(** ** A second handshake *)


(** ** Invariants of whole executions *)

Lemma handshake_run_fixed_fields rail c s t0 st t evs :
  handshake_run rail c s t0 st t evs -> Forall fixed_fields evs.
Proof.
  intros Hrun. inversion Hrun; subst; unfold locked; cbn;
    repeat (apply Forall_cons; split); try apply Forall_nil; cbn; done.
Qed.

Lemma handshake_run_sends_bracketed rail c s t0 st t evs :
  handshake_run rail c s t0 st t evs -> sends_bracketed evs.
Proof.
  intros Hrun i e Hi [k Hk].
  inversion Hrun; subst;
    do 12 (try (destruct i as [|i];
                [cbn in Hi; injection Hi as <-; try discriminate Hk;
                 eexists c, _; repeat split; reflexivity |]));
    cbn in Hi; discriminate Hi.
Qed.

Lemma sends_bracketed_no_send (evs : list event) :
  omap send_kind evs = [] -> sends_bracketed evs.
Proof.
  intros Hnone i e Hi [k Hk].
  assert (Hin : k ∈ omap send_kind evs).
  { apply list_elem_of_omap. exists e. split; [by eapply list_elem_of_lookup_2 | done]. }
  rewrite Hnone in Hin. by apply elem_of_nil in Hin.
Qed.

Lemma sends_bracketed_app (tr evs : list event) :
  sends_bracketed tr -> sends_bracketed evs -> sends_bracketed (tr ++ evs).
Proof.
  intros Htr Hevs i e Hi Hsend.
  apply lookup_app_Some in Hi as [Hi | [Hlen Hi]].
  - destruct (Htr i e Hi Hsend) as (c & j & -> & Hj & Hnext).
    exists c, j. split; [reflexivity |].
    split; by apply lookup_app_l_Some.
  - destruct (Hevs _ e Hi Hsend) as (c & j & Hij & Hj & Hnext).
    exists c, (length tr + j)%nat. split; [lia |].
    split.
    + rewrite lookup_app_r by lia.
      replace (length tr + j - length tr)%nat with j by lia. exact Hj.
    + rewrite lookup_app_r by lia.
      replace (S i - length tr)%nat with (S (i - length tr)) by lia. exact Hnext.
Qed.

(** One call into the file either makes no send and leaves the sessions
    alone, or is a run of the sequencer for a live session. *)
Lemma layer_step_cases (w w' : world T) :
  layer_step (R := R) w w' ->
  (exists evs,
     trace w' = trace w ++ evs /\
     clients w' = clients w /\
     omap send_kind evs = [] /\
     Forall fixed_fields evs) \/
  (exists rail c g st t evs,
     clients w !! c = Some g /\
     handshake_run rail c (settings (data g)) (transport w) st t evs /\
     trace w' = trace w ++ evs /\
     clients w' = <[c := set_message_lock MutexUnlocked g]> (clients w)).
Proof.
  assert (Hseq : forall rail st, guac_rdp_rail_complete_handshake rail w = Some (st, w') ->
    exists rail c g st t evs,
      clients w !! c = Some g /\
      handshake_run rail c (settings (data g)) (transport w) st t evs /\
      trace w' = trace w ++ evs /\
      clients w' = <[c := set_message_lock MutexUnlocked g]> (clients w)).
  { intros rail st Heq.
    destruct (complete_handshake_live _ _ _ _ Heq) as (c & g & Hc & Hg).
    destruct (complete_handshake_run rail w c g Hc Hg) as (st0 & t & evs & Heq0 & Hrun).
    rewrite Heq0 in Heq. injection Heq as _ <-.
    by exists rail, c, g, st0, t, evs. }
  intros Hstep. destruct Hstep as
    [context args args' w w' Heq | rail h st w w' Heq
    | rail hx st w w' Heq | rail result st w w' Heq].
  - left. unfold guac_rdp_rail_channel_connected in Heq.
    destruct (negb _).
    { injection Heq as _ <-. exists []. by rewrite app_nil_r. }
    destruct (pInterface args); [| discriminate Heq].
    injection Heq as _ <-. eexists. split; [reflexivity |].
    split; [reflexivity |]. split; [reflexivity |].
    by repeat constructor.
  - right. by eapply Hseq.
  - right. by eapply Hseq.
  - left. unfold guac_rdp_rail_execute_result, bind, guac_client_log, guac_client_abort,
      emit, ret in Heq.
    destruct (negb _); injection Heq as _ <-.
    + cbn [trace clients]. rewrite <- app_assoc. eexists. split; [reflexivity |].
      split; [reflexivity |]. split; [reflexivity |]. by repeat constructor.
    + exists []. by rewrite app_nil_r.
Qed.

(** X4: whatever FreeRDP calls, and in whatever order, the sessions that
    are live stay the same and keep their settings: the file never creates
    or frees a session and never writes a configuration. *)
Theorem layer_keeps_settings (w w' : world T) :
  rtc (layer_step (R := R)) w w' ->
  same_settings (clients w) (clients w').
Proof.
  intros Hsteps. induction Hsteps as [w | w w1 w2 Hstep _ IH]; [done |].
  intros q. rewrite IH. clear IH.
  apply layer_step_cases in Hstep
    as [(evs & _ & -> & _) | (rail & c & g & st & t & evs & Hg & _ & _ & ->)];
    [done |].
  destruct (decide (q = c)) as [-> | Hne].
  - by rewrite lookup_insert_eq, Hg.
  - by rewrite lookup_insert_ne.
Qed.

(** X5: whatever FreeRDP calls, and in whatever order, when no message
    lock is held before, none is held after: the file never returns to
    FreeRDP with the lock held. *)
Theorem layer_releases_locks (w w' : world T) :
  rtc (layer_step (R := R)) w w' ->
  all_unlocked (clients w) ->
  all_unlocked (clients w').
Proof.
  intros Hsteps. induction Hsteps as [w | w w1 w2 Hstep _ IH]; [done |].
  intros Hw. apply IH. clear IH.
  apply layer_step_cases in Hstep
    as [(evs & _ & -> & _) | (rail & c & g & st & t & evs & Hg & _ & _ & ->)];
    [done |].
  intros q g' Hq.
  destruct (decide (q = c)) as [-> | Hne].
  - rewrite lookup_insert_eq in Hq. by injection Hq as <-.
  - rewrite lookup_insert_ne in Hq by done. by eapply Hw.
Qed.

(** X6: whatever FreeRDP calls, and in whatever order, from a world in
    which nothing has been called: every Handshake PDU has build number 7600,
    every Client Information PDU has no flag, every system-parameter record
    has the literal members of the initialiser, every Client Execute PDU has
    the expand-arguments flag and no other, every abort has the status
    upstream-unavailable, and every log is at debug level. *)
Theorem layer_fixed_fields (w w' : world T) :
  rtc (layer_step (R := R)) w w' ->
  trace w = [] ->
  Forall fixed_fields (trace w').
Proof.
  intros Hsteps Hnil.
  assert (Hstart : Forall fixed_fields (trace w)) by (rewrite Hnil; constructor).
  clear Hnil. induction Hsteps as [w | w w1 w2 Hstep _ IH]; [exact Hstart |].
  apply IH. clear IH.
  apply layer_step_cases in Hstep
    as [(evs & -> & _ & _ & Hevs) | (rail & c & g & st & t & evs & _ & Hrun & -> & _)];
    apply Forall_app; split; try done.
  by eapply handshake_run_fixed_fields.
Qed.

(** X7: whatever FreeRDP calls, and in whatever order, from a world in
    which nothing has been called: every send has the lock of a session's
    message mutex right before it and the unlock of that mutex right after
    it. *)
Theorem layer_sends_bracketed (w w' : world T) :
  rtc (layer_step (R := R)) w w' ->
  trace w = [] ->
  sends_bracketed (trace w').
Proof.
  intros Hsteps Hnil.
  assert (Hstart : sends_bracketed (trace w))
    by (rewrite Hnil; by apply sends_bracketed_no_send).
  clear Hnil. induction Hsteps as [w | w w1 w2 Hstep _ IH]; [exact Hstart |].
  apply IH. clear IH.
  apply layer_step_cases in Hstep
    as [(evs & -> & _ & Hnone & _) | (rail & c & g & st & t & evs & _ & Hrun & -> & _)];
    apply sends_bracketed_app; try done.
  - by apply sends_bracketed_no_send.
  - by eapply handshake_run_sends_bracketed.
Qed.

(** ** The listener and the sequencer together *)

(** X9: after a channel-connected event for the RAIL channel, a handshake
    on the channel context as the listener left it has a result as soon as
    the session of the [rdpContext] is live, whatever [custom] was before:
    it works for that session, with its lock and its settings, through the
    send primitives FreeRDP had put in the context. *)
Theorem connected_then_handshake (context : rdp_freerdp_context)
    (args : ChannelConnectedEventArgs T R) rail w c g :
  name args = RAIL_SVC_CHANNEL_NAME ->
  pInterface args = IfaceRail rail ->
  client context = Some c ->
  clients w !! c = Some g ->
  exists args' w1 rail' status w2 evs,
    guac_rdp_rail_channel_connected context args w = Some (args', w1) /\
    pInterface args' = IfaceRail rail' /\
    guac_rdp_rail_complete_handshake rail' w1 = Some (status, w2) /\
    trace w2 = trace w1 ++ evs /\
    handshake_run rail c (settings (data g)) (transport w) status (transport w2) evs /\
    sends_in_order status evs.
Proof.
  intros Hname Hrail Hclient Hg.
  unfold guac_rdp_rail_channel_connected.
  apply strcmp_eq_0 in Hname. rewrite Hname, Hrail. cbn [Z.eqb negb].
  unfold bind, guac_client_log, emit, ret. cbn [clients transport trace].
  eexists _, _, _.
  match goal with
  | |- context [Some ({| name := _; pInterface := IfaceRail ?r |}, ?w1)] =>
      destruct (complete_handshake_run r w1 c g) as (st & t & evs & Heq & Hrun);
        [cbn; exact Hclient | exact Hg |]
  end.
  eexists _, _, evs. split; [reflexivity |]. split; [reflexivity |].
  split; [exact Heq |]. cbn [trace transport] in *.
  split; [reflexivity |].
  apply (handshake_run_same_sends _ rail) in Hrun; [| reflexivity ..].
  split; [exact Hrun |]. by eapply handshake_run_sends_in_order.
Qed.

(** X10: delivering a channel-connected event a second time, with the
    arguments as the first delivery left them, changes nothing in them: the
    listener is idempotent on the channel context, and it never touches the
    sessions or the transport. *)
Theorem channel_connected_idempotent (context : rdp_freerdp_context)
    (args args' : ChannelConnectedEventArgs T R) w w' :
  guac_rdp_rail_channel_connected context args w = Some (args', w') ->
  exists w'',
    guac_rdp_rail_channel_connected context args' w' = Some (args', w'') /\
    clients w'' = clients w /\
    transport w'' = transport w.
Proof.
  unfold guac_rdp_rail_channel_connected.
  destruct (negb (strcmp (name args) RAIL_SVC_CHANNEL_NAME =? 0)) eqn:Hcmp.
  - intros Heq. injection Heq as <- <-. rewrite Hcmp. by exists w.
  - destruct (pInterface args) as [rail |]; [| discriminate].
    intros Heq. injection Heq as <- <-. cbn [name pInterface]. rewrite Hcmp.
    eexists. split; [reflexivity |]. by split.
Qed.

End RailFacts.

Section PluginFacts.

Context {K : RailConstants} {T P : Type}.

Variable PubSub_SubscribeChannelConnected : P -> pubsub_handler -> P.
Variable guac_freerdp_channels_load_plugin : string -> T -> Z * T.
Variable GUAC_LOG_WARNING : Z.

(** X11: [guac_rdp_rail_load_plugin] asks for the plugin named rail and
    always returns.  When the loader fails, nothing is subscribed and one
    warning is logged; when it succeeds, [guac_rdp_rail_channel_connected]
    is subscribed once and one debug message is logged.  In both cases the
    log is the only call: no session is aborted, no record is sent, and the
    sessions are left as they were. *)
Theorem load_plugin_outcome (context : rdp_freerdp_context) (pubSub : P) (w : world T) :
  exists rc t pubSub' w' level message,
    guac_freerdp_channels_load_plugin "rail" (transport w) = (rc, t) /\
    guac_rdp_rail_load_plugin PubSub_SubscribeChannelConnected
      guac_freerdp_channels_load_plugin GUAC_LOG_WARNING context pubSub w
    = Some (pubSub', w') /\
    clients w' = clients w /\
    transport w' = t /\
    trace w' = trace w ++ [EvClientLog (client context) level message []] /\
    ((rc <> 0 /\ pubSub' = pubSub /\ level = GUAC_LOG_WARNING) \/
     (rc = 0 /\
      pubSub' = PubSub_SubscribeChannelConnected pubSub Fn_guac_rdp_rail_channel_connected /\
      level = GUAC_LOG_DEBUG)).
Proof.
  unfold guac_rdp_rail_load_plugin, bind, call_load_plugin, guac_client_log, emit, ret.
  destruct (guac_freerdp_channels_load_plugin "rail" (transport w)) as [rc t].
  destruct (Z.eqb_spec rc 0) as [-> | Hne]; cbn [negb clients transport trace].
  - eexists 0, t, _, _, _, _. split; [reflexivity |]. split; [reflexivity |].
    cbn. split; [reflexivity |]. split; [reflexivity |]. split; [reflexivity |].
    right. by repeat split.
  - eexists rc, t, _, _, _, _. split; [reflexivity |]. split; [reflexivity |].
    cbn. split; [reflexivity |]. split; [reflexivity |]. split; [reflexivity |].
    left. by repeat split.
Qed.

End PluginFacts.


(** ** The concrete session, run *)

(** All four sends succeed. *)
Example demo_run_success :
  option_map (fun r => (r.1, omap send_kind (trace r.2), transport r.2))
    (guac_rdp_rail_complete_handshake (K := freerdp2_constants) demo_rail (demo_world []))
  = Some (0, handshake_steps, []).
Proof. vm_compute. reflexivity. Qed.

(** The third send fails with status 5: the fourth is not made, the
    status 7 of the script is not consumed. *)
Example demo_run_sysparam_fails :
  option_map (fun r => (r.1, omap send_kind (trace r.2), transport r.2))
    (guac_rdp_rail_complete_handshake (K := freerdp2_constants) demo_rail
       (demo_world [0; 0; 5; 7]))
  = Some (5, [SendHandshake; SendClientStatus; SendSysparam], [7]).
Proof. vm_compute. reflexivity. Qed.

(** The records of a run for a 1024 x 768 session that runs notepad. *)
Example demo_run_records :
  option_map (fun r => trace r.2)
    (guac_rdp_rail_complete_handshake (K := freerdp2_constants) demo_rail (demo_world []))
  = Some
      [EvMutexLock 1%N; EvClientHandshake {| buildNumber := 7600 |} 0; EvMutexUnlock 1%N;
       EvMutexLock 1%N; EvClientInformation {| status_flags := 0 |} 0; EvMutexUnlock 1%N;
       EvMutexLock 1%N;
       EvClientSystemParam
         {| params := 0x9F;
            dragFullWindows := false;
            highContrast :=
              {| hc_flags := 0x7E;
                 colorScheme := {| us_length := 0; us_string := None |} |};
            keyboardCues := false;
            keyboardPref := false;
            mouseButtonSwap := false;
            workArea := {| left := 0; top := 0; right := 1024; bottom := 768 |} |} 0;
       EvMutexUnlock 1%N;
       EvMutexLock 1%N;
       EvClientExecute
         {| exec_flags := 8;
            RemoteApplicationProgram := Some "/usr/bin/notepad";
            RemoteApplicationWorkingDir := None;
            RemoteApplicationArguments := Some "--readonly" |} 0;
       EvMutexUnlock 1%N].
Proof. vm_compute. reflexivity. Qed.

(** A session whose back-reference is dangling: the C code dereferences
    it, the embedding has no result. *)
Example demo_run_dangling :
  guac_rdp_rail_complete_handshake (K := freerdp2_constants) demo_rail
    {| clients := ∅; transport := []; trace := [] |}
  = None.
Proof. reflexivity. Qed.

(** ** The theorems at the concrete session *)


Lemma complete_handshake_short_circuit_witness :
  custom demo_rail = Some 1%N /\
  clients (demo_world [0; 0; 5; 7]) !! 1%N = Some demo_client /\
  (1 <= 3 <= 4)%nat /\
  fails_at (K := freerdp2_constants) demo_rail demo_settings [0; 0; 5; 7] 3 5 [7] /\
  exists status w' evs,
    guac_rdp_rail_complete_handshake (K := freerdp2_constants) demo_rail
      (demo_world [0; 0; 5; 7]) = Some (status, w') /\
    trace w' = trace (demo_world [0; 0; 5; 7]) ++ evs /\
    short_circuits_at 3 status evs /\
    forall st t,
      fails_at (K := freerdp2_constants) demo_rail (settings (data demo_client))
        (transport (demo_world [0; 0; 5; 7])) 3 st t ->
      status = st /\
      transport w' = t /\
      omap send_kind evs = take 3 handshake_steps /\
      omap send_status evs = replicate (3 - 1) CHANNEL_RC_OK ++ [st].
Proof.
  split; [reflexivity |]. split; [reflexivity |]. split; [lia |].
  split; [split; [reflexivity | discriminate] |].
  apply (complete_handshake_short_circuit (K := freerdp2_constants) demo_rail
           (demo_world [0; 0; 5; 7]) 1%N demo_client 3); [reflexivity | reflexivity | lia].
Defined.

Lemma execute_after_handshake_witness :
  custom demo_rail = Some 1%N /\
  clients (demo_world []) !! 1%N = Some demo_client /\
  exists status w' evs,
    guac_rdp_rail_complete_handshake (K := freerdp2_constants) demo_rail
      (demo_world []) = Some (status, w') /\
    trace w' = trace (demo_world []) ++ evs /\
    execute_follows_handshake evs.
Proof.
  split; [reflexivity |]. split; [reflexivity |].
  apply (execute_after_handshake (K := freerdp2_constants) demo_rail
           (demo_world []) 1%N demo_client); reflexivity.
Defined.

Lemma sysparam_record_witness :
  custom demo_rail = Some 1%N /\
  clients (demo_world [0; 0; 3]) !! 1%N = Some demo_client /\
  display_size_fits (settings (data demo_client)) /\
  succeeds_through (K := freerdp2_constants) demo_rail demo_settings [0; 0; 3] 2 [3] /\
  exists status w' evs,
    guac_rdp_rail_complete_handshake (K := freerdp2_constants) demo_rail
      (demo_world [0; 0; 3]) = Some (status, w') /\
    trace w' = trace (demo_world [0; 0; 3]) ++ evs /\
    (forall o r, EvClientSystemParam o r ∈ evs ->
       sysparam_as_specified (K := freerdp2_constants) (settings (data demo_client)) o) /\
    forall t2,
      succeeds_through (K := freerdp2_constants) demo_rail (settings (data demo_client))
        (transport (demo_world [0; 0; 3])) 2 t2 ->
      exists o r t3,
        ClientSystemParam demo_rail o t2 = (r, t3) /\
        omap sysparam_call evs = [(o, r)] /\
        sysparam_as_specified (K := freerdp2_constants) (settings (data demo_client)) o.
Proof.
  split; [reflexivity |]. split; [reflexivity |].
  assert (Hfits : display_size_fits (settings (data demo_client)))
    by (unfold display_size_fits; cbn; lia).
  split; [exact Hfits |]. split; [reflexivity |].
  exact (sysparam_record (K := freerdp2_constants) demo_rail
           (demo_world [0; 0; 3]) 1%N demo_client eq_refl eq_refl Hfits).
Defined.

Lemma exec_record_witness :
  custom demo_rail = Some 1%N /\
  clients (demo_world []) !! 1%N = Some demo_client /\
  succeeds_through (K := freerdp2_constants) demo_rail demo_settings [] 3 [] /\
  exists status w' evs,
    guac_rdp_rail_complete_handshake (K := freerdp2_constants) demo_rail
      (demo_world []) = Some (status, w') /\
    trace w' = trace (demo_world []) ++ evs /\
    (forall o r, EvClientExecute o r ∈ evs ->
       exec_as_configured (K := freerdp2_constants) (settings (data demo_client)) o) /\
    forall t3,
      succeeds_through (K := freerdp2_constants) demo_rail (settings (data demo_client))
        (transport (demo_world [])) 3 t3 ->
      exists o t4,
        ClientExecute demo_rail o t3 = (status, t4) /\
        transport w' = t4 /\
        omap exec_call evs = [(o, status)] /\
        exec_as_configured (K := freerdp2_constants) (settings (data demo_client)) o.
Proof.
  split; [reflexivity |]. split; [reflexivity |]. split; [reflexivity |].
  apply (exec_record (K := freerdp2_constants) demo_rail
           (demo_world []) 1%N demo_client); reflexivity.
Defined.

Lemma channel_connected_listener_witness :
  (name demo_args = RAIL_SVC_CHANNEL_NAME (RailConstants := freerdp2_constants) ->
   exists rail, pInterface demo_args = IfaceRail rail) /\
  exists args' w',
    guac_rdp_rail_channel_connected (K := freerdp2_constants) demo_context demo_args
      (demo_world []) = Some (args', w') /\
    ((name demo_args <> RAIL_SVC_CHANNEL_NAME (RailConstants := freerdp2_constants) /\
      args' = demo_args /\ w' = demo_world []) \/
     (name demo_args = RAIL_SVC_CHANNEL_NAME (RailConstants := freerdp2_constants) /\
      exists rail rail' evs,
        pInterface demo_args = IfaceRail rail /\
        name args' = name demo_args /\
        pInterface args' = IfaceRail rail' /\
        callbacks_installed (client demo_context) rail rail' /\
        clients w' = clients (demo_world []) /\
        transport w' = transport (demo_world []) /\
        trace w' = trace (demo_world []) ++ evs /\
        omap send_kind evs = [])).
Proof.
  assert (Hiface : name demo_args = RAIL_SVC_CHANNEL_NAME (RailConstants := freerdp2_constants) ->
                   exists rail, pInterface demo_args = IfaceRail rail)
    by (intros _; eexists; reflexivity).
  split; [exact Hiface |].
  exact (channel_connected_listener (K := freerdp2_constants) demo_context demo_args
           (demo_world []) Hiface).
Defined.

Lemma lock_discipline_witness :
  custom demo_rail = Some 1%N /\
  clients (demo_world [0; 4]) !! 1%N = Some demo_client /\
  message_lock (data demo_client) = MutexUnlocked /\
  exists status w' evs,
    guac_rdp_rail_complete_handshake (K := freerdp2_constants) demo_rail
      (demo_world [0; 4]) = Some (status, w') /\
    trace w' = trace (demo_world [0; 4]) ++ evs /\
    one_lock_per_send 1%N evs /\
    exists g', clients w' !! 1%N = Some g' /\ message_lock (data g') = MutexUnlocked.
Proof.
  split; [reflexivity |]. split; [reflexivity |]. split; [reflexivity |].
  apply (lock_discipline (K := freerdp2_constants) demo_rail
           (demo_world [0; 4]) 1%N demo_client); reflexivity.
Defined.

Lemma configuration_unchanged_witness :
  custom demo_rail = Some 1%N /\
  clients (demo_world [1]) !! 1%N = Some demo_client /\
  exists status w' evs,
    guac_rdp_rail_complete_handshake (K := freerdp2_constants) demo_rail
      (demo_world [1]) = Some (status, w') /\
    trace w' = trace (demo_world [1]) ++ evs /\
    exists g',
      clients w' !! 1%N = Some g' /\
      settings (data g') = settings (data demo_client) /\
      clients w'
      = <[1%N := set_message_lock (message_lock (data g')) demo_client]>
          (clients (demo_world [1])) /\
      forall q, q <> 1%N -> clients w' !! q = clients (demo_world [1]) !! q.
Proof.
  split; [reflexivity |]. split; [reflexivity |].
  apply (configuration_unchanged (K := freerdp2_constants) demo_rail
           (demo_world [1]) 1%N demo_client); reflexivity.
Defined.

(** A channel that is not RAIL connects: nothing happens. *)
Example demo_other_channel :
  guac_rdp_rail_channel_connected (K := freerdp2_constants) demo_context demo_other_args
    (demo_world [])
  = Some (demo_other_args, demo_world []).
Proof. reflexivity. Qed.

(** The server reports that the program could not be run (code 3): the
    handler logs, aborts the session once, and returns success. *)
Example demo_execute_failed :
  option_map (fun r => (r.1, trace r.2))
    (guac_rdp_rail_execute_result (K := freerdp2_constants) demo_rail
       {| execResult := 3 |} (demo_world []))
  = Some (0, [EvClientLog (Some 1%N) 7 "Failed to execute RAIL command on server: %d" [3];
              EvClientAbort (Some 1%N) 0x0208 "Failed to execute RAIL command."]).
Proof. reflexivity. Qed.

(** ** The further theorems at the concrete session *)

(** A handshake, then the report of a failure, as one execution. *)
Lemma demo_execution :
  rtc (layer_step (K := freerdp2_constants) (R := unit)) (demo_world []) demo_aborted.
Proof.
  eapply rtc_l.
  - eapply (step_handshake (K := freerdp2_constants) _ _ demo_rail
              {| buildNumber := 1 |} 0 (demo_world []) (demo_after [])).
    reflexivity.
  - apply rtc_once.
    eapply (step_execute_result (K := freerdp2_constants) _ _ demo_rail
              {| execResult := 3 |} 0 (demo_after []) demo_aborted).
    reflexivity.
Defined.

Lemma demo_world_unlocked : all_unlocked (clients (demo_world [])).
Proof.
  intros q g Hq. unfold demo_world in Hq. cbn [clients] in Hq.
  apply lookup_singleton_Some in Hq as [_ <-]. reflexivity.
Defined.


Lemma layer_keeps_settings_witness :
  rtc (layer_step (K := freerdp2_constants) (R := unit)) (demo_world []) demo_aborted /\
  same_settings (clients (demo_world [])) (clients demo_aborted).
Proof.
  split; [exact demo_execution |].
  exact (layer_keeps_settings (K := freerdp2_constants) (R := unit)
           (demo_world []) demo_aborted demo_execution).
Defined.

Lemma layer_releases_locks_witness :
  rtc (layer_step (K := freerdp2_constants) (R := unit)) (demo_world []) demo_aborted /\
  all_unlocked (clients (demo_world [])) /\
  all_unlocked (clients demo_aborted).
Proof.
  split; [exact demo_execution |]. split; [exact demo_world_unlocked |].
  exact (layer_releases_locks (K := freerdp2_constants) (R := unit)
           (demo_world []) demo_aborted demo_execution demo_world_unlocked).
Defined.

Lemma layer_fixed_fields_witness :
  rtc (layer_step (K := freerdp2_constants) (R := unit)) (demo_world []) demo_aborted /\
  trace (demo_world []) = [] /\
  Forall (fixed_fields (K := freerdp2_constants)) (trace demo_aborted).
Proof.
  split; [exact demo_execution |]. split; [reflexivity |].
  exact (layer_fixed_fields (K := freerdp2_constants) (R := unit)
           (demo_world []) demo_aborted demo_execution eq_refl).
Defined.

Lemma layer_sends_bracketed_witness :
  rtc (layer_step (K := freerdp2_constants) (R := unit)) (demo_world []) demo_aborted /\
  trace (demo_world []) = [] /\
  sends_bracketed (trace demo_aborted).
Proof.
  split; [exact demo_execution |]. split; [reflexivity |].
  exact (layer_sends_bracketed (K := freerdp2_constants) (R := unit)
           (demo_world []) demo_aborted demo_execution eq_refl).
Defined.

Lemma layer_execute_after_handshake_witness :
  rtc (layer_step (K := freerdp2_constants) (R := unit)) (demo_world []) demo_aborted /\
  trace (demo_world []) = [] /\
  execute_follows_handshake (trace demo_aborted).
Proof.
  split; [exact demo_execution |]. split; [reflexivity |].
  exact (layer_execute_after_handshake (K := freerdp2_constants) (R := unit)
           (demo_world []) demo_aborted demo_execution eq_refl).
Defined.

Lemma connected_then_handshake_witness :
  name fresh_args = RAIL_SVC_CHANNEL_NAME (RailConstants := freerdp2_constants) /\
  pInterface fresh_args = IfaceRail fresh_rail /\
  client demo_context = Some 1%N /\
  clients (demo_world [0; 2]) !! 1%N = Some demo_client /\
  exists args' w1 rail' status w2 evs,
    guac_rdp_rail_channel_connected (K := freerdp2_constants) demo_context fresh_args
      (demo_world [0; 2]) = Some (args', w1) /\
    pInterface args' = IfaceRail rail' /\
    guac_rdp_rail_complete_handshake (K := freerdp2_constants) rail' w1
    = Some (status, w2) /\
    trace w2 = trace w1 ++ evs /\
    handshake_run (K := freerdp2_constants) fresh_rail 1%N
      (settings (data demo_client)) (transport (demo_world [0; 2])) status
      (transport w2) evs /\
    sends_in_order status evs.
Proof.
  do 4 (split; [reflexivity |]).
  apply (connected_then_handshake (K := freerdp2_constants) demo_context fresh_args
           fresh_rail (demo_world [0; 2]) 1%N demo_client); reflexivity.
Defined.

Lemma channel_connected_idempotent_witness :
  guac_rdp_rail_channel_connected (K := freerdp2_constants) demo_context fresh_args
    (demo_world []) = Some (connected_args, connected_world) /\
  exists w'',
    guac_rdp_rail_channel_connected (K := freerdp2_constants) demo_context
      connected_args connected_world = Some (connected_args, w'') /\
    clients w'' = clients (demo_world []) /\
    transport w'' = transport (demo_world []).
Proof.
  split; [reflexivity |].
  apply (channel_connected_idempotent (K := freerdp2_constants) demo_context
           fresh_args connected_args (demo_world []) connected_world).
  reflexivity.
Defined.

(** The execution above, by evaluation: twelve calls of the handshake,
    then the log and the abort. *)
Example demo_execution_trace :
  (omap send_kind (trace demo_aborted), omap abort_call (trace demo_aborted),
   length (trace demo_aborted))
  = (handshake_steps, [(Some 1%N, 0x0208, "Failed to execute RAIL command.")], 14%nat).
Proof. vm_compute. reflexivity. Qed.

(** The plugin cannot be loaded (status 1): a warning at level 4, no
    subscription; the script's next status is left for the transport. *)
Example demo_load_fails :
  option_map (fun r => (r.1, transport r.2, omap abort_call (trace r.2), length (trace r.2)))
    (guac_rdp_rail_load_plugin (K := freerdp2_constants)
       (fun (subscribed : list pubsub_handler) h => subscribed ++ [h])
       scripted_load 4 demo_context [] (demo_world [1; 9]))
  = Some ([], [9], [], 1%nat).
Proof. vm_compute. reflexivity. Qed.

(** The plugin is loaded: the listener is subscribed after the handlers
    that were there. *)
Example demo_load_succeeds :
  option_map fst
    (guac_rdp_rail_load_plugin (K := freerdp2_constants)
       (fun (subscribed : list pubsub_handler) h => subscribed ++ [h])
       scripted_load 4 demo_context [HandlerForeign 5] (demo_world []))
  = Some [HandlerForeign 5; Fn_guac_rdp_rail_channel_connected].
Proof. vm_compute. reflexivity. Qed.
